(** * Alarm clock on wheels: the interrupt handlers and the render loop

    A shallow embedding of [alarm_clock_on_wheels.ino] (ATmega328P, avr-gcc).
    The global [volatile] variables become one record, every interrupt
    service routine becomes a function on that record, and [loop] becomes a
    function returning the new globals together with the peripheral commands
    it issued during the pass. *)

From Stdlib Require Import ZArith Bool List Lia String Ascii.
Import ListNotations.
Local Open Scope Z_scope.

(** ** Machine integers

    On the AVR target [int] and [unsigned int] are 16 bits wide and
    [unsigned long] is 32 bits wide.  Values are kept in [Z] and every
    arithmetic result is wrapped explicitly. *)
Module AVR.

Definition UINT_MODULUS : Z := 2 ^ 16.
Definition ULONG_MODULUS : Z := 2 ^ 32.

(** Conversion to [unsigned int]. *)
Definition uint (x : Z) : Z := x mod UINT_MODULUS.

(** Conversion to [unsigned long]. *)
Definition ulong (x : Z) : Z := x mod ULONG_MODULUS.

(** Conversion to (two's complement) [int]. *)
Definition sint (x : Z) : Z := (x + 2 ^ 15) mod UINT_MODULUS - 2 ^ 15.

(** Bit number of pin PD4 inside the PIND register (avr/io.h). *)
Definition PD4 : Z := 4.

End AVR.
Import AVR.

(** ** Constants of the sketch *)

Definition INITIAL_STATE : Z := 0.
Definition SETTING_ALARM : Z := 1.
Definition ALARM_SET : Z := 2.
Definition ALARM_RINGING : Z := 3.

Definition in1 : Z := 5.
Definition in2 : Z := 6.
Definition in3 : Z := 7.
Definition in4 : Z := 8.
Definition buzzer_pin : Z := 9.
Definition enA : Z := 11.
Definition enB : Z := 12.

Definition MINIMUM_TIME_BETWEEN_BUTTON_PRESSES_MILLIS : Z := 200.
Definition NUMBER_OF_SECONDS_IN_A_MINUTE : Z := 60.
Definition DEFAULT_SNOOZE_TIME_MINUTES : Z := 3.
Definition BUZZING_TIME_MILLIS : Z := 3500.
Definition BUZZER_FREQUENCY_HZ : Z := 1000.

(** ** The global variables *)

Record Globals : Type := mkGlobals {
  last_yellow_button_push : Z;      (* unsigned long *)
  last_red_button_push : Z;         (* unsigned long *)
  last_blue_button_push : Z;        (* unsigned long *)
  seconds_passed : Z;               (* unsigned int *)
  seconds_for_alarm_start : Z;      (* unsigned int *)
  number_of_minutes_selected : Z;   (* unsigned int *)
  current_direction_start : Z;      (* unsigned long *)
  direction : bool;
  state : Z;                        (* int *)
  changed_state : bool;
  force_lcd_clear : bool
}.

(** The values the globals have when [setup] returns: the initialisers of
    the declarations, and zero for [current_direction_start], which has
    static storage and no initialiser. *)
Definition boot : Globals :=
  {| last_yellow_button_push := 0;
     last_red_button_push := 0;
     last_blue_button_push := 0;
     seconds_passed := 0;
     seconds_for_alarm_start := 0;
     number_of_minutes_selected := 0;
     current_direction_start := 0;
     direction := false;
     state := INITIAL_STATE;
     changed_state := false;
     force_lcd_clear := false |}.

(** Assignments to one global. *)
Definition set_last_yellow_button_push (v : Z) (g : Globals) : Globals :=
  mkGlobals v (last_red_button_push g) (last_blue_button_push g)
    (seconds_passed g) (seconds_for_alarm_start g)
    (number_of_minutes_selected g) (current_direction_start g) (direction g)
    (state g) (changed_state g) (force_lcd_clear g).

Definition set_last_red_button_push (v : Z) (g : Globals) : Globals :=
  mkGlobals (last_yellow_button_push g) v (last_blue_button_push g)
    (seconds_passed g) (seconds_for_alarm_start g)
    (number_of_minutes_selected g) (current_direction_start g) (direction g)
    (state g) (changed_state g) (force_lcd_clear g).

Definition set_last_blue_button_push (v : Z) (g : Globals) : Globals :=
  mkGlobals (last_yellow_button_push g) (last_red_button_push g) v
    (seconds_passed g) (seconds_for_alarm_start g)
    (number_of_minutes_selected g) (current_direction_start g) (direction g)
    (state g) (changed_state g) (force_lcd_clear g).

Definition set_seconds_passed (v : Z) (g : Globals) : Globals :=
  mkGlobals (last_yellow_button_push g) (last_red_button_push g)
    (last_blue_button_push g) v (seconds_for_alarm_start g)
    (number_of_minutes_selected g) (current_direction_start g) (direction g)
    (state g) (changed_state g) (force_lcd_clear g).

Definition set_seconds_for_alarm_start (v : Z) (g : Globals) : Globals :=
  mkGlobals (last_yellow_button_push g) (last_red_button_push g)
    (last_blue_button_push g) (seconds_passed g) v
    (number_of_minutes_selected g) (current_direction_start g) (direction g)
    (state g) (changed_state g) (force_lcd_clear g).

Definition set_number_of_minutes_selected (v : Z) (g : Globals) : Globals :=
  mkGlobals (last_yellow_button_push g) (last_red_button_push g)
    (last_blue_button_push g) (seconds_passed g) (seconds_for_alarm_start g)
    v (current_direction_start g) (direction g)
    (state g) (changed_state g) (force_lcd_clear g).

Definition set_current_direction_start (v : Z) (g : Globals) : Globals :=
  mkGlobals (last_yellow_button_push g) (last_red_button_push g)
    (last_blue_button_push g) (seconds_passed g) (seconds_for_alarm_start g)
    (number_of_minutes_selected g) v (direction g)
    (state g) (changed_state g) (force_lcd_clear g).

Definition set_direction (v : bool) (g : Globals) : Globals :=
  mkGlobals (last_yellow_button_push g) (last_red_button_push g)
    (last_blue_button_push g) (seconds_passed g) (seconds_for_alarm_start g)
    (number_of_minutes_selected g) (current_direction_start g) v
    (state g) (changed_state g) (force_lcd_clear g).

Definition set_state (v : Z) (g : Globals) : Globals :=
  mkGlobals (last_yellow_button_push g) (last_red_button_push g)
    (last_blue_button_push g) (seconds_passed g) (seconds_for_alarm_start g)
    (number_of_minutes_selected g) (current_direction_start g) (direction g)
    v (changed_state g) (force_lcd_clear g).

Definition set_changed_state (v : bool) (g : Globals) : Globals :=
  mkGlobals (last_yellow_button_push g) (last_red_button_push g)
    (last_blue_button_push g) (seconds_passed g) (seconds_for_alarm_start g)
    (number_of_minutes_selected g) (current_direction_start g) (direction g)
    (state g) v (force_lcd_clear g).

Definition set_force_lcd_clear (v : bool) (g : Globals) : Globals :=
  mkGlobals (last_yellow_button_push g) (last_red_button_push g)
    (last_blue_button_push g) (seconds_passed g) (seconds_for_alarm_start g)
    (number_of_minutes_selected g) (current_direction_start g) (direction g)
    (state g) (changed_state g) v.

(** ** Interrupt service routines *)

(** [ISR(TIMER1_COMPA_vect)]: the two-second tick. *)
Definition ISR_TIMER1_COMPA_vect (g : Globals) : Globals :=
  let g := set_seconds_passed (uint (seconds_passed g + 2)) g in
  if (seconds_for_alarm_start g <=? seconds_passed g) && (state g =? ALARM_SET)
  then
    let g := set_state (sint (state g + 1)) g in
    set_changed_state true g
  else g.

(** The body of the blue-button handler that runs once the press has passed
    the debounce test: confirm the number of minutes selected. *)
Definition blue_button_action (g : Globals) : Globals :=
  if state g =? SETTING_ALARM then
    let g := set_state (sint (state g + 1)) g in
    let g := set_changed_state true g in
    set_seconds_for_alarm_start
      (uint (seconds_passed g
             + uint (NUMBER_OF_SECONDS_IN_A_MINUTE * number_of_minutes_selected g)))
      g
  else g.

(** [ISR(INT0_vect)]: the blue button; [millis] is what [millis()] returns. *)
Definition ISR_INT0_vect (millis : Z) (g : Globals) : Globals :=
  let current_time := millis in
  if MINIMUM_TIME_BETWEEN_BUTTON_PRESSES_MILLIS
       <=? ulong (current_time - last_blue_button_push g)
  then
    let g := set_last_blue_button_push current_time g in
    blue_button_action g
  else g.

(** The body of the red-button handler after the debounce test: decrease the
    number of minutes, then stop a ringing alarm.  The two [if]s are
    sequential in the source, the second one reads the globals the first one
    left. *)
Definition red_button_action (g : Globals) : Globals :=
  let g :=
    if (state g =? SETTING_ALARM) && (0 <? number_of_minutes_selected g) then
      let g := set_number_of_minutes_selected
                 (uint (number_of_minutes_selected g - 1)) g in
      if (number_of_minutes_selected g =? 9)
         || (number_of_minutes_selected g =? 99)
      then set_force_lcd_clear true g
      else g
    else g in
  if state g =? ALARM_RINGING then
    let g := set_state INITIAL_STATE g in
    set_changed_state true g
  else g.

(** [ISR(INT1_vect)]: the red button. *)
Definition ISR_INT1_vect (millis : Z) (g : Globals) : Globals :=
  let current_time := millis in
  if MINIMUM_TIME_BETWEEN_BUTTON_PRESSES_MILLIS
       <=? ulong (current_time - last_red_button_push g)
  then
    let g := set_last_red_button_push current_time g in
    red_button_action g
  else g.

(** The body of the yellow-button handler after the debounce test: three
    sequential [if]s, each reading the state the previous one left. *)
Definition yellow_button_action (g : Globals) : Globals :=
  let g :=
    if state g =? SETTING_ALARM then
      set_number_of_minutes_selected
        (uint (number_of_minutes_selected g + 1)) g
    else g in
  let g :=
    if state g =? INITIAL_STATE then
      let g := set_state (sint (state g + 1)) g in
      let g := set_changed_state true g in
      set_number_of_minutes_selected 1 g
    else g in
  if state g =? ALARM_RINGING then
    let g := set_state ALARM_SET g in
    let g := set_changed_state true g in
    set_seconds_for_alarm_start
      (uint (seconds_passed g
             + DEFAULT_SNOOZE_TIME_MINUTES * NUMBER_OF_SECONDS_IN_A_MINUTE))
      g
  else g.

(** [ISR(PCINT2_vect)]: the yellow button on the pin-change interrupt of
    port D; [PIND] is the value read from the input register. *)
Definition ISR_PCINT2_vect (PIND millis : Z) (g : Globals) : Globals :=
  if Z.land PIND (Z.shiftl 1 PD4) =? 0 then
    let current_time := millis in
    if MINIMUM_TIME_BETWEEN_BUTTON_PRESSES_MILLIS
         <=? ulong (current_time - last_yellow_button_push g)
    then
      let g := set_last_yellow_button_push current_time g in
      yellow_button_action g
    else g
  else g.

(** ** The render loop *)

(** Commands sent to the peripherals.  The three [print_*] functions of the
    sketch only talk to the display and the clock chip and are kept as one
    command each. *)
Inductive Output : Type :=
| lcd_clear
| digitalWrite (pin : Z) (high : bool)
| analogWrite (pin value : Z)
| tone (pin frequency : Z)
| noTone (pin : Z)
| print_date_and_time
| print_current_alarm_info (minutes : Z)
| print_during_alarm_ringing.

Definition move_forward : list Output :=
  [ digitalWrite in1 false; digitalWrite in2 true;
    digitalWrite in3 true; digitalWrite in4 false;
    analogWrite enA 200; analogWrite enB 200 ].

Definition move_backward : list Output :=
  [ digitalWrite in1 true; digitalWrite in2 false;
    digitalWrite in3 false; digitalWrite in4 true;
    analogWrite enA 200; analogWrite enB 200 ].

Definition stop_car : list Output :=
  [ digitalWrite in1 false; digitalWrite in2 false;
    digitalWrite in3 false; digitalWrite in4 false ].

(** The part of [loop] below the [changed_state] block, the dispatch on
    [state].  [millis1] is the value of the first call of [millis()] in the
    pass and [millis2] that of the second one. *)
Definition loop_dispatch (millis1 millis2 : Z) (g : Globals)
  : Globals * list Output :=
  if state g =? ALARM_RINGING then
    if BUZZING_TIME_MILLIS <=? ulong (millis1 - current_direction_start g)
    then
      let g := set_current_direction_start millis2 g in
      let g := set_direction (negb (direction g)) g in
      (g, [print_during_alarm_ringing])
    else if direction g then
      (g, [print_during_alarm_ringing; tone buzzer_pin BUZZER_FREQUENCY_HZ]
            ++ move_forward)
    else
      (g, [print_during_alarm_ringing; noTone buzzer_pin] ++ move_backward)
  else if (state g =? INITIAL_STATE) || (state g =? ALARM_SET) then
    (g, [noTone buzzer_pin; print_date_and_time])
  else if state g =? SETTING_ALARM then
    if force_lcd_clear g then
      let g := set_force_lcd_clear false g in
      (g, [lcd_clear; print_current_alarm_info (number_of_minutes_selected g)])
    else
      (g, [print_current_alarm_info (number_of_minutes_selected g)])
  else (g, []).

(** One pass of [loop], run without an interrupt in between. *)
Definition loop (millis1 millis2 : Z) (g : Globals) : Globals * list Output :=
  if changed_state g then
    let g := set_changed_state false g in
    if state g =? ALARM_RINGING then
      let g := set_direction false g in
      let g := set_current_direction_start millis1 g in
      (g, [lcd_clear])
    else
      let (g', out) := loop_dispatch millis1 millis2 g in
      (g', [lcd_clear] ++ stop_car ++ out)
  else loop_dispatch millis1 millis2 g.

(** ** Executions *)

(** The three buttons. *)
Inductive Button : Type := Yellow | Red | Blue.

(** What can happen to the globals: the timer tick, a button interrupt
    (for the yellow one the handler is entered with PD4 reading low), a
    pin-change interrupt with another value of [PIND], or a pass of the
    loop. *)
Inductive Event : Type :=
| Tick
| Press (b : Button) (millis : Z)
| PinChange (PIND millis : Z)
| Pass (millis1 millis2 : Z).

Definition press (b : Button) (millis : Z) (g : Globals) : Globals :=
  match b with
  | Yellow => ISR_PCINT2_vect 0 millis g
  | Red => ISR_INT1_vect millis g
  | Blue => ISR_INT0_vect millis g
  end.

Definition step (g : Globals) (e : Event) : Globals :=
  match e with
  | Tick => ISR_TIMER1_COMPA_vect g
  | Press b millis => press b millis g
  | PinChange PIND millis => ISR_PCINT2_vect PIND millis g
  | Pass millis1 millis2 => fst (loop millis1 millis2 g)
  end.

Definition run (es : list Event) (g : Globals) : Globals :=
  fold_left step es g.

(** [n] consecutive ticks. *)
Fixpoint ticks (n : nat) (g : Globals) : Globals :=
  match n with
  | O => g
  | S n => ticks n (ISR_TIMER1_COMPA_vect g)
  end.

(** The debounce bookkeeping of one button. *)
Definition last_push (b : Button) (g : Globals) : Z :=
  match b with
  | Yellow => last_yellow_button_push g
  | Red => last_red_button_push g
  | Blue => last_blue_button_push g
  end.

Definition set_last_push (b : Button) (v : Z) (g : Globals) : Globals :=
  match b with
  | Yellow => set_last_yellow_button_push v g
  | Red => set_last_red_button_push v g
  | Blue => set_last_blue_button_push v g
  end.

Definition button_action (b : Button) (g : Globals) : Globals :=
  match b with
  | Yellow => yellow_button_action g
  | Red => red_button_action g
  | Blue => blue_button_action g
  end.

(** The debounce test of the handlers: the press at [millis] is taken. *)
Definition accepted (b : Button) (millis : Z) (g : Globals) : bool :=
  MINIMUM_TIME_BETWEEN_BUTTON_PRESSES_MILLIS
    <=? ulong (millis - last_push b g).

(** The transition table of the state machine as the specification lists
    it (from, trigger): [in_table g e] tells whether event [e], arriving
    with globals [g], is one of its rows.  The row for the blue button in
    INITIAL_STATE, listed as ignored, is not counted. *)
Definition in_table (g : Globals) (e : Event) : bool :=
  match e with
  | Tick =>
      (state g =? ALARM_SET)
      && (seconds_for_alarm_start g <=? uint (seconds_passed g + 2))
  | Press Yellow _ =>
      (state g =? INITIAL_STATE) || (state g =? SETTING_ALARM)
      || (state g =? ALARM_RINGING)
  | Press Red _ =>
      ((state g =? SETTING_ALARM) && (0 <? number_of_minutes_selected g))
      || (state g =? ALARM_RINGING)
  | Press Blue _ => state g =? SETTING_ALARM
  | PinChange PIND _ =>
      (Z.land PIND (Z.shiftl 1 PD4) =? 0)
      && ((state g =? INITIAL_STATE) || (state g =? SETTING_ALARM)
          || (state g =? ALARM_RINGING))
  | Pass _ _ => false
  end.

(** ** Predicates used in the statements *)

(** The four values of the enumeration. *)
Definition valid_state (s : Z) : Prop :=
  s = INITIAL_STATE \/ s = SETTING_ALARM \/ s = ALARM_SET \/ s = ALARM_RINGING.

(** Commands that drive the motor pins. *)
Definition is_motor_command (o : Output) : bool :=
  match o with
  | digitalWrite _ _ | analogWrite _ _ => true
  | _ => false
  end.

(** A list of loop passes, each with its two clock readings. *)
Definition passes (ps : list (Z * Z)) : list Event :=
  map (fun p => Pass (fst p) (snd p)) ps.

(** Both counters hold even 16-bit values. *)
Record counters_even (g : Globals) : Prop := {
  seconds_passed_range : 0 <= seconds_passed g < UINT_MODULUS;
  seconds_passed_even : Z.even (seconds_passed g) = true;
  alarm_start_range : 0 <= seconds_for_alarm_start g < UINT_MODULUS;
  alarm_start_even : Z.even (seconds_for_alarm_start g) = true
}.

(** ** Scenarios *)

(** Boot, then yellow pressed three times: three minutes are selected. *)
Definition three_minutes_selected : Globals :=
  run [Press Yellow 1000; Press Yellow 2000; Press Yellow 3000] boot.

(** Boot, yellow pressed ten times, so that ten minutes are selected. *)
Definition ten_minutes_selected : Globals :=
  run (map (fun k => Press Yellow (1000 * k)) [1; 2; 3; 4; 5; 6; 7; 8; 9; 10])
    boot.

(** An alarm for one minute is set right after boot, with a pass of the
    loop after each press; thirty ticks later it starts ringing.  The loop
    has not run yet since the tick that raised it. *)
Definition first_ring : Globals :=
  ticks 30
    (run [Press Yellow 1000; Pass 1010 1010; Press Blue 1800; Pass 1810 1810]
       boot).

(** The first ringing alarm, once the loop has consumed the flag. *)
Definition first_ring_entered : Globals :=
  fst (loop 60001 60002 first_ring).

(** Eighteen hours after boot an alarm for one minute is set, rings and is
    left ringing for twenty seconds. *)
Definition ringing_late : Globals :=
  ticks 40
    (run [Press Yellow 65280500; Press Blue 65281000]
       (ticks (Z.to_nat 32640) boot)).

(** Eighteen hours after boot one minute is selected. *)
Definition setting_late : Globals :=
  press Yellow 65500500 (ticks (Z.to_nat 32750) boot).

(** ** Executions with their commands *)

(** The interrupt events, as opposed to the passes of the loop. *)
Definition is_interrupt (e : Event) : bool :=
  match e with
  | Pass _ _ => false
  | _ => true
  end.

(** The arrows of the state machine that the handlers implement. *)
Definition is_transition (s s' : Z) : bool :=
  ((s =? INITIAL_STATE) && (s' =? SETTING_ALARM))
  || ((s =? SETTING_ALARM) && (s' =? ALARM_SET))
  || ((s =? ALARM_SET) && (s' =? ALARM_RINGING))
  || ((s =? ALARM_RINGING) && (s' =? INITIAL_STATE))
  || ((s =? ALARM_RINGING) && (s' =? ALARM_SET)).

(** Number of timer ticks in a list of events. *)
Fixpoint count_ticks (es : list Event) : Z :=
  match es with
  | [] => 0
  | Tick :: es => 1 + count_ticks es
  | _ :: es => count_ticks es
  end.

(** The commands one event sends to the peripherals: only the loop talks to
    them. *)
Definition step_out (g : Globals) (e : Event) : list Output :=
  match e with
  | Pass millis1 millis2 => snd (loop millis1 millis2 g)
  | _ => []
  end.

(** The commands sent along an execution, oldest first. *)
Fixpoint run_out (es : list Event) (g : Globals) : list Output :=
  match es with
  | [] => []
  | e :: es => step_out g e ++ run_out es (step g e)
  end.

(** Commands that start or stop the buzzer. *)
Definition is_buzzer_command (o : Output) : bool :=
  match o with
  | tone _ _ | noTone _ => true
  | _ => false
  end.

(** A command that can set the car in motion or sound the buzzer: a
    [digitalWrite] of HIGH, an [analogWrite] or a [tone]. *)
Definition is_activating (o : Output) : bool :=
  match o with
  | digitalWrite _ true | analogWrite _ _ | tone _ _ => true
  | _ => false
  end.

(** The last motor commands of a list of commands write LOW to the four
    direction pins of the motor driver, 5, 6, 7 and 8, or the list holds no
    motor command at all. *)
Definition car_stopped (out : list Output) : Prop :=
  filter is_motor_command out = []
  \/ exists before,
      filter is_motor_command out
      = before ++ [ digitalWrite 5 false; digitalWrite 6 false;
                    digitalWrite 7 false; digitalWrite 8 false ].

(** The last buzzer command of a list of commands is [noTone], or the list
    holds no buzzer command at all. *)
Definition buzzer_silent (out : list Output) : Prop :=
  filter is_buzzer_command out = []
  \/ exists before,
      filter is_buzzer_command out = before ++ [noTone buzzer_pin].

(** Clock readings below 2^32, each at least 200 ms after the one before,
    the first at least 200 ms after [last]. *)
Fixpoint spaced (last : Z) (times : list Z) : Prop :=
  match times with
  | [] => True
  | t :: times => last + 200 <= t /\ t < 2 ^ 32 /\ spaced t times
  end.

(** An alarm for one minute set after boot rings; the loop enters the
    ringing state, flips the direction after 3500 ms and then sounds the
    buzzer and drives the car forward. *)
Definition alarm_run : list Event :=
  [Press Yellow 1000; Pass 1010 1010; Press Blue 1800; Pass 1810 1810]
  ++ repeat Tick 30
  ++ [Pass 60001 60002; Pass 63502 63503; Pass 63600 63601].

(** ** The text shown while the minutes are selected *)

(** One decimal digit as a character. *)
Definition digit_char (d : Z) : ascii := ascii_of_nat (48 + Z.to_nat d).

(** The decimal digits of a non-negative number, most significant first, as
    the [%d] conversion writes them; [fuel] bounds the number of digits. *)
Fixpoint decimal_digits (fuel : nat) (v : Z) : string :=
  match fuel with
  | O => EmptyString
  | S fuel =>
      if v <? 10 then String (digit_char v) EmptyString
      else (decimal_digits fuel (v / 10)
            ++ String (digit_char (v mod 10)) EmptyString)%string
  end.

(** The conversion [%d] applied to an [unsigned int] argument: the 16 bits
    are read as an [int]. *)
Definition sprintf_d (v : Z) : string :=
  let i := sint v in
  if i <? 0 then String "-" (decimal_digits 5 (- i)) else decimal_digits 5 i.

(** The contents of [buff] after
    [sprintf(buff, "%d minutes", number_of_minutes_selected)]. *)
Definition minutes_text (minutes : Z) : string :=
  (sprintf_d minutes ++ " minutes")%string.

(** Calls made on the display. *)
Inductive LcdCall : Type :=
| setCursor (col row : Z)
| print (text : string).

(** [print_current_alarm_info]. *)
Definition print_current_alarm_info_calls (minutes : Z) : list LcdCall :=
  [ setCursor 0 0; print "Set alarm for:"; setCursor 0 1;
    print (minutes_text minutes) ].


(** The numbers below [n]. *)
Definition below (n : nat) : list Z := map Z.of_nat (seq 0 n).

(** ** The configuration registers *)

(** Bit numbers of the ATmega328P registers (avr/io.h). *)
Module IO.

Definition WGM12 : Z := 3.
Definition CS12 : Z := 2.
Definition CS10 : Z := 0.
Definition OCIE1A : Z := 1.
Definition ISC00 : Z := 0.
Definition ISC01 : Z := 1.
Definition ISC10 : Z := 2.
Definition ISC11 : Z := 3.
Definition INT0 : Z := 0.
Definition INT1 : Z := 1.
Definition PCIE2 : Z := 2.
Definition PCINT20 : Z := 4.

(** Conversion to an 8-bit register value. *)
Definition u8 (x : Z) : Z := x mod 2 ^ 8.

End IO.
Import IO.

(** The registers written by [setup], and the global interrupt flag that
    [cli()] clears and [sei()] sets. *)
Record Registers : Type := mkRegisters {
  TCCR1A : Z;
  TCCR1B : Z;
  TCNT1 : Z;
  OCR1A : Z;
  TIMSK1 : Z;
  EICRA : Z;
  EIMSK : Z;
  PCICR : Z;
  PCMSK2 : Z;
  interrupts_enabled : bool
}.

(** [configure_timer1]. *)
Definition configure_timer1 (r : Registers) : Registers :=
  let tccr1a := 0 in
  let tccr1b := 0 in
  let tcnt1 := 0 in
  let ocr1a := 31250 in
  let tccr1b := u8 (Z.lor tccr1b (Z.shiftl 1 WGM12)) in
  let tccr1b :=
    u8 (Z.lor tccr1b (Z.lor (Z.shiftl 1 CS12) (Z.shiftl 1 CS10))) in
  mkRegisters tccr1a tccr1b tcnt1 ocr1a (TIMSK1 r) (EICRA r) (EIMSK r)
    (PCICR r) (PCMSK2 r) (interrupts_enabled r).

(** [configure_button_interrupts]. *)
Definition configure_button_interrupts (r : Registers) : Registers :=
  let eicra :=
    u8 (Z.lor (EICRA r)
          (Z.lor (Z.lor (Z.lor (Z.shiftl 1 ISC00) (Z.shiftl 1 ISC01))
                    (Z.shiftl 1 ISC10))
             (Z.shiftl 1 ISC11))) in
  let eimsk := u8 (Z.lor (EIMSK r) (Z.lor (Z.shiftl 1 INT0) (Z.shiftl 1 INT1))) in
  let pcicr := u8 (Z.lor (PCICR r) (Z.shiftl 1 PCIE2)) in
  let pcmsk2 := u8 (Z.lor (PCMSK2 r) (Z.shiftl 1 PCINT20)) in
  mkRegisters (TCCR1A r) (TCCR1B r) (TCNT1 r) (OCR1A r) (TIMSK1 r)
    eicra eimsk pcicr pcmsk2 (interrupts_enabled r).

(** Calls that [setup] makes on the pins, the clock chip and the display. *)
Inductive SetupCall : Type :=
| pinMode_OUTPUT (pin : Z)
| rtc_begin
| lcd_begin
| lcd_backlight
| lcd_clear_display.

(** [setup]: the peripheral calls in order, and the registers it leaves. *)
Definition setup (r : Registers) : Registers * list SetupCall :=
  let calls :=
    [ pinMode_OUTPUT buzzer_pin; pinMode_OUTPUT enA; pinMode_OUTPUT enB;
      pinMode_OUTPUT in1; pinMode_OUTPUT in2; pinMode_OUTPUT in3;
      pinMode_OUTPUT in4;
      rtc_begin; lcd_begin; lcd_backlight; lcd_clear_display ] in
  (* cli() *)
  let r := mkRegisters (TCCR1A r) (TCCR1B r) (TCNT1 r) (OCR1A r) (TIMSK1 r)
             (EICRA r) (EIMSK r) (PCICR r) (PCMSK2 r) false in
  let r := configure_timer1 r in
  (* TIMSK1 |= (1 << OCIE1A) *)
  let r := mkRegisters (TCCR1A r) (TCCR1B r) (TCNT1 r) (OCR1A r)
             (u8 (Z.lor (TIMSK1 r) (Z.shiftl 1 OCIE1A)))
             (EICRA r) (EIMSK r) (PCICR r) (PCMSK2 r)
             (interrupts_enabled r) in
  (* sei() *)
  let r := mkRegisters (TCCR1A r) (TCCR1B r) (TCNT1 r) (OCR1A r) (TIMSK1 r)
             (EICRA r) (EIMSK r) (PCICR r) (PCMSK2 r) true in
  let r := configure_button_interrupts r in
  (r, calls).

(** ** Proof tools *)

Ltac unfold_constants :=
  unfold INITIAL_STATE, SETTING_ALARM, ALARM_SET, ALARM_RINGING,
    MINIMUM_TIME_BETWEEN_BUTTON_PRESSES_MILLIS, NUMBER_OF_SECONDS_IN_A_MINUTE,
    DEFAULT_SNOOZE_TIME_MINUTES, BUZZING_TIME_MILLIS in *.

(** Turn the boolean tests recorded in the context into propositions. *)
Ltac tests_to_props :=
  repeat match goal with
  | H : (_ && _)%bool = true |- _ => apply andb_true_iff in H; destruct H
  | H : (_ || _)%bool = false |- _ => apply orb_false_iff in H; destruct H
  | H : (_ && _)%bool = false |- _ => apply andb_false_iff in H
  | H : (_ || _)%bool = true |- _ => apply orb_true_iff in H
  | H : (_ =? _) = true |- _ => apply Z.eqb_eq in H
  | H : (_ =? _) = false |- _ => apply Z.eqb_neq in H
  | H : (_ <=? _) = true |- _ => apply Z.leb_le in H
  | H : (_ <=? _) = false |- _ => apply Z.leb_gt in H
  | H : (_ <? _) = true |- _ => apply Z.ltb_lt in H
  | H : (_ <? _) = false |- _ => apply Z.ltb_ge in H
  end.

Lemma sint_small (x : Z) : - 2 ^ 15 <= x < 2 ^ 15 -> sint x = x.
Proof.
  intros H. unfold sint, UINT_MODULUS.
  rewrite Z.mod_small; lia.
Qed.

Lemma uint_small (x : Z) : 0 <= x < UINT_MODULUS -> uint x = x.
Proof. intros H. unfold uint. now apply Z.mod_small. Qed.

Lemma uint_range (x : Z) : 0 <= uint x < UINT_MODULUS.
Proof. unfold uint, UINT_MODULUS. apply Z.mod_pos_bound. lia. Qed.

(** Unfold the handlers and the loop down to conditionals over the fields
    of the globals. *)
Ltac expose_code :=
  cbv beta iota zeta delta
    [step press button_action set_last_push last_push accepted
     ISR_TIMER1_COMPA_vect ISR_INT0_vect ISR_INT1_vect ISR_PCINT2_vect
     blue_button_action red_button_action yellow_button_action
     loop loop_dispatch
     set_last_yellow_button_push set_last_red_button_push
     set_last_blue_button_push set_seconds_passed
     set_seconds_for_alarm_start set_number_of_minutes_selected
     set_current_direction_start set_direction set_state
     set_changed_state set_force_lcd_clear
     state seconds_passed seconds_for_alarm_start
     number_of_minutes_selected changed_state force_lcd_clear
     direction current_direction_start last_yellow_button_push
     last_red_button_push last_blue_button_push fst snd] in *;
  try change (Z.land 0 (Z.shiftl 1 PD4) =? 0) with true in *;
  cbv beta iota in *.

(** Symbolic execution of a handler or of a pass of the loop on globals
    [g]. *)
Ltac run_code g :=
  destruct g as [ly lr lb sp sa nm cds dir st chg flc];
  expose_code; unfold_constants; tests_to_props;
  repeat (match goal with
          | |- context [if ?b then _ else _] =>
              lazymatch b with
              | context [if _ then _ else _] => fail
              | _ => destruct b eqn:?
              end
          end; expose_code; tests_to_props;
          repeat match goal with
          | H : context [sint ?x] |- _ => rewrite (sint_small x) in H by lia
          | |- context [sint ?x] => rewrite (sint_small x) by lia
          end;
          try (exfalso; lia)).

Lemma step_valid_state (g : Globals) (e : Event) :
  valid_state (state g) -> valid_state (state (step g e)).
Proof.
  unfold valid_state; intros H.
  destruct e as [ | [ | | ] t | p t | t1 t2 ];
    run_code g; unfold_constants;
    try rewrite sint_small by lia; lia.
Qed.

Lemma run_valid_state (es : list Event) (g : Globals) :
  valid_state (state g) -> valid_state (state (run es g)).
Proof.
  revert g. induction es as [ | e es IH ]; intros g H; cbn.
  - exact H.
  - apply IH. now apply step_valid_state.
Qed.

(** ** The state never leaves the enumeration *)

(** C9: after any sequence of ticks, button interrupts, pin-change
    interrupts and loop passes from boot, [state] holds one of the four
    values 0 (INITIAL_STATE), 1 (SETTING_ALARM), 2 (ALARM_SET) and
    3 (ALARM_RINGING). *)
Theorem state_stays_in_enumeration (es : list Event) :
  let s := state (run es boot) in
  s = 0 \/ s = 1 \/ s = 2 \/ s = 3.
Proof.
  cbv zeta.
  apply (run_valid_state es boot).
  left. reflexivity.
Qed.

(** ** Events outside the transition table *)

(** C2: an event that is not a row of the transition table leaves [state],
    [number_of_minutes_selected] and [seconds_for_alarm_start] as they
    are, whether or not the debounce test lets it through. *)
Theorem off_table_event_is_noop (g : Globals) (e : Event) :
  in_table g e = false ->
  state (step g e) = state g
  /\ number_of_minutes_selected (step g e) = number_of_minutes_selected g
  /\ seconds_for_alarm_start (step g e) = seconds_for_alarm_start g.
Proof.
  intros H.
  destruct e as [ | [ | | ] t | p t | t1 t2 ]; unfold in_table in H;
    run_code g; unfold_constants; repeat split; try reflexivity;
    try lia;
    repeat match goal with
    | H : _ \/ _ |- _ => destruct H
    end; try lia.
Qed.

Lemma off_table_event_is_noop_witness :
  in_table boot (Press Blue 1000) = false
  /\ state (step boot (Press Blue 1000)) = state boot
  /\ number_of_minutes_selected (step boot (Press Blue 1000))
     = number_of_minutes_selected boot
  /\ seconds_for_alarm_start (step boot (Press Blue 1000))
     = seconds_for_alarm_start boot.
Proof.
  split; [ reflexivity | ].
  apply (off_table_event_is_noop boot (Press Blue 1000)).
  reflexivity.
Defined.

(** ** Snooze *)

(** C3 (as amended): in ALARM_RINGING a yellow press that passes the
    debounce test re-arms the alarm.  [state] becomes ALARM_SET,
    [changed_state] is set and [seconds_for_alarm_start] becomes
    [seconds_passed + 180] reduced modulo 2^16, whatever
    [number_of_minutes_selected] and the previous target were; this is
    [seconds_passed + 180] itself as long as that sum fits 16 bits. *)
Theorem snooze_rearms (g : Globals) (millis : Z) :
  state g = ALARM_RINGING ->
  accepted Yellow millis g = true ->
  let g' := press Yellow millis g in
  state g' = ALARM_SET
  /\ changed_state g' = true
  /\ seconds_for_alarm_start g' = (seconds_passed g + 180) mod 2 ^ 16
  /\ (0 <= seconds_passed g <= 65355 ->
      seconds_for_alarm_start g' = seconds_passed g + 180)
  /\ seconds_passed g' = seconds_passed g
  /\ number_of_minutes_selected g' = number_of_minutes_selected g.
Proof.
  intros Hs Ha. cbv zeta.
  run_code g.
  unfold uint, UINT_MODULUS. repeat split.
  intros Hr. apply Z.mod_small. lia.
Qed.

Lemma snooze_rearms_witness :
  state ringing_late = ALARM_RINGING
  /\ accepted Yellow 65361500 ringing_late = true
  /\ state (press Yellow 65361500 ringing_late) = ALARM_SET
  /\ seconds_for_alarm_start (press Yellow 65361500 ringing_late) = 4.
Proof.
  split; [ vm_compute; reflexivity | ].
  split; [ vm_compute; reflexivity | ].
  pose proof (snooze_rearms ringing_late 65361500) as H.
  cbv zeta in H.
  destruct H as (H1 & _ & H3 & _); [ vm_compute; reflexivity .. | ].
  split; [ exact H1 | ].
  rewrite H3. vm_compute. reflexivity.
Defined.

(** C3 as stated fails when the sum leaves the 16-bit range: with
    [seconds_passed = 65360] the snooze target is 4 and not 65540, and the
    alarm rings again on the very next tick instead of after three minutes. *)
Lemma snooze_target_wraps :
  state ringing_late = ALARM_RINGING
  /\ seconds_passed ringing_late = 65360
  /\ accepted Yellow 65361500 ringing_late = true
  /\ seconds_for_alarm_start (press Yellow 65361500 ringing_late) = 4
  /\ seconds_for_alarm_start (press Yellow 65361500 ringing_late)
     <> seconds_passed ringing_late + 180
  /\ state (ISR_TIMER1_COMPA_vect (press Yellow 65361500 ringing_late))
     = ALARM_RINGING.
Proof.
  split; [ vm_compute; reflexivity | ].
  split; [ vm_compute; reflexivity | ].
  split; [ vm_compute; reflexivity | ].
  split; [ vm_compute; reflexivity | ].
  split; [ | vm_compute; reflexivity ].
  vm_compute. intros H. discriminate H.
Qed.

(** ** The number of minutes *)

(** C7: in SETTING_ALARM a red press that passes the debounce test leaves
    [number_of_minutes_selected] at 0 when it is 0 and otherwise takes
    exactly 1 off; [force_lcd_clear] is raised exactly when the decremented
    value is 9 or 99, and keeps its value otherwise.  The yellow-button
    handler never writes [force_lcd_clear]. *)
Theorem decrease_in_setting_alarm (g : Globals) (millis : Z) :
  state g = SETTING_ALARM ->
  accepted Red millis g = true ->
  0 <= number_of_minutes_selected g < 2 ^ 16 ->
  let m := number_of_minutes_selected g in
  let g' := press Red millis g in
  state g' = SETTING_ALARM
  /\ (m = 0 ->
      number_of_minutes_selected g' = 0
      /\ force_lcd_clear g' = force_lcd_clear g)
  /\ (0 < m ->
      number_of_minutes_selected g' = m - 1
      /\ force_lcd_clear g'
         = (force_lcd_clear g || ((m - 1 =? 9) || (m - 1 =? 99)))%bool)
  /\ (forall h PIND millis',
      force_lcd_clear (ISR_PCINT2_vect PIND millis' h) = force_lcd_clear h).
Proof.
  intros Hs Ha Hm. cbv zeta.
  split; [ | split; [ | split ] ].
  - run_code g; lia.
  - intros Hz. run_code g. split; [ assumption | reflexivity ].
  - intros Hpos.
    assert (Hu : uint (number_of_minutes_selected g - 1)
                 = number_of_minutes_selected g - 1)
      by (apply uint_small; unfold UINT_MODULUS; lia).
    run_code g; rewrite Hu in *; (split; [ reflexivity | ]);
      destruct (Z.eqb_spec (nm - 1) 9); destruct (Z.eqb_spec (nm - 1) 99);
      rewrite ?orb_true_r, ?orb_false_r; try reflexivity;
      repeat match goal with
      | H : _ \/ _ |- _ => destruct H
      | H : _ /\ _ |- _ => destruct H
      end; tests_to_props; lia.
  - intros h p t. run_code h; reflexivity.
Qed.

Lemma decrease_in_setting_alarm_witness :
  number_of_minutes_selected ten_minutes_selected = 10
  /\ number_of_minutes_selected (press Red 20000 ten_minutes_selected) = 9
  /\ force_lcd_clear (press Red 20000 ten_minutes_selected) = true.
Proof.
  split; [ vm_compute; reflexivity | ].
  pose proof (decrease_in_setting_alarm ten_minutes_selected 20000) as H.
  cbv zeta in H.
  destruct H as (_ & _ & H & _);
    [ vm_compute; reflexivity | vm_compute; reflexivity
    | vm_compute; split; [ discriminate | reflexivity ] | ].
  destruct H as [H1 H2]; [ vm_compute; reflexivity | ].
  split.
  - rewrite H1. vm_compute. reflexivity.
  - rewrite H2. vm_compute. reflexivity.
Defined.

(** C8 (as amended): a yellow press taken in INITIAL_STATE enters
    SETTING_ALARM with [number_of_minutes_selected] set to 1.  No handler
    resets the counter when the state leaves SETTING_ALARM: every event
    after which the state is not SETTING_ALARM leaves
    [number_of_minutes_selected] as it was, so the selected value is kept
    through ALARM_SET, ALARM_RINGING and INITIAL_STATE until the next entry
    into SETTING_ALARM overwrites it with 1. *)
Theorem minutes_selected_lifecycle (g : Globals) :
  (forall millis,
      state g = INITIAL_STATE ->
      accepted Yellow millis g = true ->
      state (press Yellow millis g) = SETTING_ALARM
      /\ number_of_minutes_selected (press Yellow millis g) = 1)
  /\ (forall e,
      state (step g e) <> SETTING_ALARM ->
      number_of_minutes_selected (step g e) = number_of_minutes_selected g).
Proof.
  split.
  - intros t Hs Ha. run_code g. split; [ lia | reflexivity ].
  - intros e H.
    destruct e as [ | [ | | ] t | p t | t1 t2 ];
      run_code g; try reflexivity; try lia;
      try (rewrite sint_small in H by lia; lia).
Qed.

Lemma minutes_selected_lifecycle_witness :
  state (press Yellow 1000 boot) = SETTING_ALARM
  /\ number_of_minutes_selected (press Yellow 1000 boot) = 1
  /\ number_of_minutes_selected (step boot Tick)
     = number_of_minutes_selected boot.
Proof.
  destruct (minutes_selected_lifecycle boot) as [H1 H2].
  destruct (H1 1000) as [Ha Hb]; [ reflexivity | reflexivity | ].
  split; [ exact Ha | ].
  split; [ exact Hb | ].
  apply (H2 Tick). vm_compute. discriminate.
Defined.

(** C8 as stated fails: confirming leaves SETTING_ALARM for ALARM_SET and
    the counter still holds the three minutes that were selected. *)
Lemma minutes_selected_kept_after_confirm :
  state three_minutes_selected = SETTING_ALARM
  /\ number_of_minutes_selected three_minutes_selected = 3
  /\ accepted Blue 4000 three_minutes_selected = true
  /\ state (press Blue 4000 three_minutes_selected) = ALARM_SET
  /\ number_of_minutes_selected (press Blue 4000 three_minutes_selected) = 3.
Proof. repeat split; vm_compute; reflexivity. Qed.

(** ** The loop *)

Lemma loop_keeps_state (millis1 millis2 : Z) (g : Globals) :
  state (fst (loop millis1 millis2 g)) = state g.
Proof. run_code g; reflexivity. Qed.

Lemma loop_clears_changed_state (millis1 millis2 : Z) (g : Globals) :
  changed_state (fst (loop millis1 millis2 g)) = false.
Proof. run_code g; reflexivity. Qed.

Lemma passes_keep_state (ps : list (Z * Z)) (g : Globals) :
  state (run (passes ps) g) = state g.
Proof.
  revert g. induction ps as [ | [t1 t2] ps IH ]; intros g; cbn.
  - reflexivity.
  - unfold run, passes in IH. rewrite IH. apply loop_keeps_state.
Qed.

Lemma passes_keep_flag_down (ps : list (Z * Z)) (g : Globals) :
  changed_state g = false -> changed_state (run (passes ps) g) = false.
Proof.
  revert g. induction ps as [ | [t1 t2] ps IH ]; intros g H; cbn.
  - exact H.
  - unfold run, passes in IH. apply IH. apply loop_clears_changed_state.
Qed.

(** C5: every event that takes [state] from one value to a different one
    sets [changed_state].  A pass of the loop that finds the flag set clears
    it, clears the display and performs one entry action: in ALARM_RINGING
    it sets [direction] to false, stores the clock reading in
    [current_direction_start] and issues nothing else in that pass; in any
    other state it stops the motor, writing LOW to the pins 5, 6, 7 and 8
    (in1 to in4), leaves [direction] and [current_direction_start] alone and
    goes on with the ordinary pass of that state, which sends no motor
    command. *)
Theorem changed_state_handoff (g : Globals) :
  (forall e, state (step g e) <> state g -> changed_state (step g e) = true)
  /\ (forall millis1 millis2,
      changed_state g = true ->
      let g' := fst (loop millis1 millis2 g) in
      let out := snd (loop millis1 millis2 g) in
      changed_state g' = false
      /\ state g' = state g
      /\ (state g = ALARM_RINGING ->
          direction g' = false
          /\ current_direction_start g' = millis1
          /\ out = [lcd_clear])
      /\ (state g <> ALARM_RINGING ->
          direction g' = direction g
          /\ current_direction_start g' = current_direction_start g
          /\ out
             = [ lcd_clear;
                 digitalWrite 5 false; digitalWrite 6 false;
                 digitalWrite 7 false; digitalWrite 8 false ]
               ++ (if (state g =? INITIAL_STATE) || (state g =? ALARM_SET)
                   then [noTone 9; print_date_and_time]
                   else if state g =? SETTING_ALARM
                   then (if force_lcd_clear g
                         then [ lcd_clear;
                                print_current_alarm_info
                                  (number_of_minutes_selected g) ]
                         else [ print_current_alarm_info
                                  (number_of_minutes_selected g) ])
                   else []))).
Proof.
  split.
  - intros e H.
    destruct e as [ | [ | | ] t | p t | t1 t2 ];
      run_code g; try reflexivity; exfalso; apply H; reflexivity.
  - intros t1 t2 Hc. cbv zeta.
    split; [ apply loop_clears_changed_state | ].
    split; [ apply loop_keeps_state | ].
    split; intros Hs.
    + run_code g; try discriminate. repeat split.
    + run_code g; try discriminate; repeat split.
Qed.

(** The alarm of [first_ring] one tick before it rings: the loop has
    consumed every earlier change of state. *)
Lemma changed_state_handoff_witness :
  let armed := ticks 29
                 (run [Press Yellow 1000; Pass 1010 1010;
                       Press Blue 1800; Pass 1810 1810] boot) in
  changed_state armed = false
  /\ changed_state (step armed Tick) = true
  /\ changed_state (fst (loop 60001 60002 first_ring)) = false
  /\ current_direction_start (fst (loop 60001 60002 first_ring)) = 60001
  /\ snd (loop 60001 60002 first_ring) = [lcd_clear]
  /\ snd (loop 1801 1802 (press Blue 1800 (press Yellow 1000 boot)))
     = [ lcd_clear;
         digitalWrite 5 false; digitalWrite 6 false;
         digitalWrite 7 false; digitalWrite 8 false;
         noTone 9; print_date_and_time ].
Proof.
  cbv zeta.
  split; [ vm_compute; reflexivity | ].
  split.
  - destruct (changed_state_handoff
                (ticks 29
                   (run [Press Yellow 1000; Pass 1010 1010;
                         Press Blue 1800; Pass 1810 1810] boot)))
      as [H _].
    apply (H Tick). vm_compute. discriminate.
  - destruct (changed_state_handoff first_ring) as [_ H].
    destruct (H 60001 60002) as (H1 & _ & H3 & _); [ vm_compute; reflexivity | ].
    destruct H3 as (_ & H4 & H5); [ vm_compute; reflexivity | ].
    split; [ exact H1 | ]. split; [ exact H4 | ]. split; [ exact H5 | ].
    destruct (changed_state_handoff (press Blue 1800 (press Yellow 1000 boot)))
      as [_ H'].
    destruct (H' 1801 1802) as (_ & _ & _ & H6); [ vm_compute; reflexivity | ].
    destruct H6 as (_ & _ & H7); [ vm_compute; discriminate | ].
    rewrite H7. vm_compute. reflexivity.
Defined.

(** C6 (as amended): in ALARM_RINGING, on a pass that does not find
    [changed_state] set, the loop prints the instructions and then: if 3500
    ms or more have gone by since [current_direction_start] (32-bit
    difference of the clock readings) it negates [direction], stores the
    second clock reading in [current_direction_start] and issues no buzzer
    or motor command; otherwise it leaves the globals alone and, when
    [direction] is true, sounds the buzzer ([tone] on pin 9 at 1000 Hz) and
    drives the motor forward (pins 5 to 8 written LOW, HIGH, HIGH, LOW and
    both enables, 11 and 12, at 200), and when it is false silences the
    buzzer ([noTone] on pin 9) and drives the motor backward (pins 5 to 8
    written HIGH, LOW, LOW, HIGH and both enables at 200).  After a flip, a
    pass within 3500 ms of the stored reading does not flip again and the
    first pass beyond it flips back.  Passes of the loop never change
    [state] nor set the flag, so this goes on until an interrupt leaves
    ALARM_RINGING. *)
Theorem ringing_oscillation (g : Globals) (millis1 millis2 : Z) :
  state g = ALARM_RINGING ->
  changed_state g = false ->
  let elapsed := (millis1 - current_direction_start g) mod 2 ^ 32 in
  let g' := fst (loop millis1 millis2 g) in
  let out := snd (loop millis1 millis2 g) in
  (3500 <= elapsed ->
      direction g' = negb (direction g)
      /\ current_direction_start g' = millis2
      /\ out = [print_during_alarm_ringing]
      /\ forall u1 u2,
          ((u1 - millis2) mod 2 ^ 32 < 3500 ->
           direction (fst (loop u1 u2 g')) = negb (direction g))
          /\ (3500 <= (u1 - millis2) mod 2 ^ 32 ->
              direction (fst (loop u1 u2 g')) = direction g))
  /\ (elapsed < 3500 ->
      g' = g
      /\ out = print_during_alarm_ringing
               :: (if direction g
                   then [ tone 9 1000;
                          digitalWrite 5 false; digitalWrite 6 true;
                          digitalWrite 7 true; digitalWrite 8 false;
                          analogWrite 11 200; analogWrite 12 200 ]
                   else [ noTone 9;
                          digitalWrite 5 true; digitalWrite 6 false;
                          digitalWrite 7 false; digitalWrite 8 true;
                          analogWrite 11 200; analogWrite 12 200 ]))
  /\ (forall ps,
      state (run (passes ps) g) = ALARM_RINGING
      /\ changed_state (run (passes ps) g) = false).
Proof.
  intros Hs Hc. cbv zeta.
  split; [ | split ].
  - intros He. unfold ulong, ULONG_MODULUS in *.
    destruct g as [ly lr lb sp sa nm cds dir st chg flc].
    expose_code. unfold_constants. subst st chg.
    change (3 =? 3) with true. cbv beta iota.
    unfold ulong, ULONG_MODULUS.
    destruct (Z.leb_spec 3500 ((millis1 - cds) mod 2 ^ 32)) as [ _ | Hlt ];
      [ | exfalso; lia ].
    cbv beta iota. expose_code.
    repeat split.
    + intros Hu.
      destruct (Z.leb_spec 3500 ((u1 - millis2) mod 2 ^ 32)) as [ Hge | _ ];
        [ exfalso; lia | ].
      change (3 =? 3) with true. destruct dir; reflexivity.
    + intros Hu.
      destruct (Z.leb_spec 3500 ((u1 - millis2) mod 2 ^ 32)) as [ _ | Hlt ];
        [ | exfalso; lia ].
      change (3 =? 3) with true. destruct dir; reflexivity.
  - intros He.
    destruct g as [ly lr lb sp sa nm cds dir st chg flc].
    expose_code. unfold_constants. subst st chg.
    change (3 =? 3) with true. cbv beta iota.
    unfold ulong, ULONG_MODULUS.
    destruct (Z.leb_spec 3500 ((millis1 - cds) mod 2 ^ 32)) as [ Hge | _ ];
      [ exfalso; lia | ].
    destruct dir; split; reflexivity.
  - intros ps. rewrite passes_keep_state. split; [ exact Hs | ].
    now apply passes_keep_flag_down.
Qed.

Lemma ringing_oscillation_witness :
  direction first_ring_entered = false
  /\ snd (loop 61000 61001 first_ring_entered)
     = [ print_during_alarm_ringing; noTone 9;
         digitalWrite 5 true; digitalWrite 6 false;
         digitalWrite 7 false; digitalWrite 8 true;
         analogWrite 11 200; analogWrite 12 200 ]
  /\ direction (fst (loop 63501 63502 first_ring_entered)) = true
  /\ current_direction_start (fst (loop 63501 63502 first_ring_entered))
     = 63502
  /\ state (run (passes [(61000, 61001); (63501, 63502); (67002, 67003)])
              first_ring_entered) = ALARM_RINGING.
Proof.
  split; [ vm_compute; reflexivity | ].
  pose proof (ringing_oscillation first_ring_entered 61000 61001) as H.
  cbv zeta in H.
  destruct H as (_ & H & _); [ vm_compute; reflexivity .. | ].
  destruct H as [_ Hout]; [ vm_compute; reflexivity | ].
  split; [ rewrite Hout; vm_compute; reflexivity | ].
  pose proof (ringing_oscillation first_ring_entered 63501 63502) as H.
  cbv zeta in H.
  destruct H as (H & _ & Hp); [ vm_compute; reflexivity .. | ].
  destruct H as (Hd & Hs & _); [ vm_compute; discriminate | ].
  split; [ rewrite Hd; vm_compute; reflexivity | ].
  split; [ exact Hs | ].
  apply (proj1 (Hp [(61000, 61001); (63501, 63502); (67002, 67003)])).
Defined.

(** C6 as stated fails on the pass that enters ALARM_RINGING: 60 s after
    boot more than 3500 ms have gone by since [current_direction_start],
    yet the pass, finding [changed_state] set, does not flip [direction]
    (it stays false). *)
Lemma entry_pass_does_not_flip :
  state first_ring = ALARM_RINGING
  /\ 3500 <= (60001 - current_direction_start first_ring) mod 2 ^ 32
  /\ direction first_ring = false
  /\ direction (fst (loop 60001 60002 first_ring)) = false
  /\ current_direction_start (fst (loop 60001 60002 first_ring)) = 60001.
Proof.
  split; [ vm_compute; reflexivity | ].
  split; [ vm_compute; discriminate | ].
  repeat split; vm_compute; reflexivity.
Qed.

(** ** The debounce test *)

Lemma press_unfold (b : Button) (millis : Z) (g : Globals) :
  press b millis g
  = if accepted b millis g
    then button_action b (set_last_push b millis g)
    else g.
Proof. destruct b; reflexivity. Qed.

Lemma button_action_last_push (b b' : Button) (g : Globals) :
  last_push b' (button_action b g) = last_push b' g.
Proof. destruct b, b'; run_code g; reflexivity. Qed.

Lemma last_push_set_same (b : Button) (v : Z) (g : Globals) :
  last_push b (set_last_push b v g) = v.
Proof. destruct b; reflexivity. Qed.

Lemma last_push_set_other (b b' : Button) (v : Z) (g : Globals) :
  b' <> b -> last_push b' (set_last_push b v g) = last_push b' g.
Proof. destruct b, b'; intros H; try reflexivity; contradiction. Qed.

(** C4 (as amended): for each button, with [elapsed] the 32-bit difference
    between the clock reading and that button's own timestamp, the handler
    takes the edge exactly when [200 <= elapsed]: it then stores the reading
    in the timestamp and runs the state-machine part on the globals so
    updated; when [elapsed < 200] it changes nothing at all.  The timestamps
    of the other two buttons are never touched.  The yellow handler sees an
    edge only when PD4 reads low, and changes nothing otherwise.  Of two
    edges of one button less than 200 ms apart at most one is taken: if the
    first is taken the second is dropped and changes nothing; if the first
    is dropped nothing has changed, and the second is taken exactly when it
    comes at least 200 ms after the timestamp itself. *)
Theorem debounce_gate (b : Button) (g : Globals) (millis : Z) :
  let elapsed := (millis - last_push b g) mod 2 ^ 32 in
  accepted b millis g = (200 <=? elapsed)
  /\ (200 <= elapsed ->
      press b millis g = button_action b (set_last_push b millis g)
      /\ last_push b (press b millis g) = millis)
  /\ (elapsed < 200 -> press b millis g = g)
  /\ (0 <= last_push b g <= millis -> millis < 2 ^ 32 ->
      elapsed = millis - last_push b g)
  /\ (forall b', b' <> b -> last_push b' (press b millis g) = last_push b' g)
  /\ (forall PIND,
      ISR_PCINT2_vect PIND millis g
      = if Z.land PIND (Z.shiftl 1 PD4) =? 0 then press Yellow millis g else g)
  /\ (forall millis',
      (millis' - millis) mod 2 ^ 32 < 200 ->
      (200 <= elapsed ->
       accepted b millis' (press b millis g) = false
       /\ press b millis' (press b millis g) = press b millis g)
      /\ (elapsed < 200 ->
          accepted b millis' (press b millis g)
          = (200 <=? (millis' - last_push b g) mod 2 ^ 32)
          /\ press b millis' (press b millis g) = press b millis' g)
      /\ (accepted b millis g
          && accepted b millis' (press b millis g))%bool = false).
Proof.
  cbv zeta.
  assert (Hacc : forall t h,
             accepted b t h = (200 <=? (t - last_push b h) mod 2 ^ 32))
    by reflexivity.
  assert (Htaken : 200 <= (millis - last_push b g) mod 2 ^ 32 ->
                   press b millis g
                   = button_action b (set_last_push b millis g)).
  { intros H. rewrite press_unfold, Hacc.
    destruct (Z.leb_spec 200 ((millis - last_push b g) mod 2 ^ 32));
      [ reflexivity | lia ]. }
  assert (Hlast : 200 <= (millis - last_push b g) mod 2 ^ 32 ->
                  last_push b (press b millis g) = millis).
  { intros H. rewrite (Htaken H), button_action_last_push.
    apply last_push_set_same. }
  assert (Hdropped : (millis - last_push b g) mod 2 ^ 32 < 200 ->
                     press b millis g = g).
  { intros H. rewrite press_unfold, Hacc.
    destruct (Z.leb_spec 200 ((millis - last_push b g) mod 2 ^ 32));
      [ lia | reflexivity ]. }
  split; [ apply Hacc | ].
  split; [ | split; [ | split; [ | split; [ | split ] ] ] ].
  - intros H. split; [ exact (Htaken H) | exact (Hlast H) ].
  - exact Hdropped.
  - intros H1 H2. apply Z.mod_small. lia.
  - intros b' Hb. rewrite press_unfold.
    destruct (accepted b millis g); [ | reflexivity ].
    rewrite button_action_last_push. now apply last_push_set_other.
  - intros p. unfold ISR_PCINT2_vect, press.
    destruct (Z.land p (Z.shiftl 1 PD4) =? 0); reflexivity.
  - intros t' Ht'.
    assert (Hsecond : 200 <= (millis - last_push b g) mod 2 ^ 32 ->
                      accepted b t' (press b millis g) = false).
    { intros H. rewrite Hacc, (Hlast H). apply Z.leb_gt. exact Ht'. }
    split; [ | split ].
    + intros H. split; [ exact (Hsecond H) | ].
      rewrite (press_unfold b t'), (Hsecond H). reflexivity.
    + intros H. rewrite (Hdropped H). split; [ apply Hacc | reflexivity ].
    + rewrite (Hacc millis g).
      destruct (Z.leb_spec 200 ((millis - last_push b g) mod 2 ^ 32)) as [H|H];
        [ | reflexivity ].
      rewrite (Hsecond H). reflexivity.
Qed.

Lemma debounce_gate_witness :
  press Red 1000 boot = red_button_action (set_last_red_button_push 1000 boot)
  /\ last_red_button_push (press Red 1000 boot) = 1000
  /\ press Red 150 boot = boot
  /\ press Red 1100 (press Red 1000 boot) = press Red 1000 boot
  /\ accepted Red 1250 (press Red 1150 (press Red 1000 boot)) = true.
Proof.
  pose proof (debounce_gate Red boot 1000) as H. cbv zeta in H.
  destruct H as (_ & H1 & _ & _ & _ & _ & H6).
  destruct H1 as [H1 H1']; [ vm_compute; discriminate | ].
  destruct (H6 1100) as [H7 _]; [ vm_compute; reflexivity | ].
  pose proof (debounce_gate Red boot 150) as H. cbv zeta in H.
  destruct H as (_ & _ & H2 & _).
  split; [ exact H1 | ]. split; [ exact H1' | ].
  split; [ apply H2; vm_compute; reflexivity | ].
  split; [ apply H7; vm_compute; discriminate | ].
  pose proof (debounce_gate Red (press Red 1000 boot) 1150) as H.
  cbv zeta in H.
  destruct H as (_ & _ & _ & _ & _ & _ & H8).
  destruct (H8 1250) as (_ & H9 & _); [ vm_compute; reflexivity | ].
  destruct H9 as [H9 _]; [ vm_compute; reflexivity | ].
  rewrite H9. vm_compute. reflexivity.
Defined.

(** C4 as stated fails in its last sentence: after a red press taken at
    1000 ms, edges at 1100 ms and 1150 ms are 50 ms apart and both are
    dropped, so the two edges produce no accepted event, not one. *)
Lemma two_close_edges_both_dropped :
  last_red_button_push (press Red 1000 boot) = 1000
  /\ (1150 - 1100) mod 2 ^ 32 < 200
  /\ accepted Red 1100 (press Red 1000 boot) = false
  /\ accepted Red 1150 (press Red 1100 (press Red 1000 boot)) = false
  /\ press Red 1150 (press Red 1100 (press Red 1000 boot))
     = press Red 1000 boot.
Proof. repeat split; vm_compute; reflexivity. Qed.

(** ** The timer tick *)

Lemma tick_seconds_passed (g : Globals) :
  seconds_passed (ISR_TIMER1_COMPA_vect g) = uint (seconds_passed g + 2).
Proof. run_code g; reflexivity. Qed.

Lemma tick_seconds_for_alarm_start (g : Globals) :
  seconds_for_alarm_start (ISR_TIMER1_COMPA_vect g)
  = seconds_for_alarm_start g.
Proof. run_code g; reflexivity. Qed.

Lemma tick_state (g : Globals) :
  state (ISR_TIMER1_COMPA_vect g)
  = if (seconds_for_alarm_start g <=? uint (seconds_passed g + 2))
       && (state g =? ALARM_SET)
    then ALARM_RINGING
    else state g.
Proof.
  destruct g as [ly lr lb sp sa nm cds dir st chg flc].
  expose_code.
  destruct ((sa <=? uint (sp + 2)) && (st =? ALARM_SET))%bool eqn:H;
    [ | reflexivity ].
  tests_to_props. unfold_constants. cbv beta iota.
  rewrite sint_small by lia. lia.
Qed.

Lemma ticks_S_r (n : nat) (g : Globals) :
  ticks (S n) g = ISR_TIMER1_COMPA_vect (ticks n g).
Proof.
  revert g. induction n as [ | n IH ]; intros g.
  - reflexivity.
  - change (ticks (S (S n)) g) with (ticks (S n) (ISR_TIMER1_COMPA_vect g)).
    rewrite IH. reflexivity.
Qed.

Lemma ticks_seconds_for_alarm_start (n : nat) (g : Globals) :
  seconds_for_alarm_start (ticks n g) = seconds_for_alarm_start g.
Proof.
  induction n as [ | n IH ].
  - reflexivity.
  - rewrite ticks_S_r, tick_seconds_for_alarm_start. exact IH.
Qed.

Lemma ticks_seconds_passed (n : nat) (g : Globals) :
  0 <= seconds_passed g < UINT_MODULUS ->
  seconds_passed (ticks n g) = uint (seconds_passed g + 2 * Z.of_nat n).
Proof.
  intros Hr. induction n as [ | n IH ].
  - cbn [ticks]. rewrite Z.mul_0_r, Z.add_0_r. symmetry.
    now apply uint_small.
  - rewrite ticks_S_r, tick_seconds_passed, IH. unfold uint.
    rewrite Zplus_mod_idemp_l. f_equal. lia.
Qed.

(** Ticks leave every state but ALARM_SET alone. *)
Lemma tick_inert (g : Globals) :
  state g <> ALARM_SET -> state (ISR_TIMER1_COMPA_vect g) = state g.
Proof.
  intros H. rewrite tick_state.
  destruct (Z.eqb_spec (state g) ALARM_SET) as [He|_]; [ contradiction | ].
  rewrite andb_false_r. reflexivity.
Qed.

(** In ALARM_SET, as long as the advanced counter stays below the target,
    the state stays ALARM_SET and the counter has moved by 2 per tick. *)
Lemma ticks_before_target (n : nat) (g : Globals) :
  state g = ALARM_SET ->
  0 <= seconds_passed g ->
  seconds_for_alarm_start g < UINT_MODULUS ->
  seconds_passed g + 2 * Z.of_nat n < seconds_for_alarm_start g ->
  state (ticks n g) = ALARM_SET
  /\ seconds_passed (ticks n g) = seconds_passed g + 2 * Z.of_nat n.
Proof.
  intros Hs H0 Ht. induction n as [ | n IH ]; intros Hn.
  - cbn [ticks]. split; [ exact Hs | lia ].
  - destruct IH as [IHs IHp]; [ lia | ].
    rewrite ticks_S_r, tick_state, tick_seconds_passed,
      ticks_seconds_for_alarm_start, IHs, IHp.
    rewrite uint_small by lia.
    destruct (Z.leb_spec (seconds_for_alarm_start g)
                (seconds_passed g + 2 * Z.of_nat n + 2)); [ lia | ].
    cbn [andb]. split; [ reflexivity | lia ].
Qed.

(** ** From confirming to ringing *)

Lemma confirm_fields (g : Globals) (millis : Z) :
  state g = SETTING_ALARM ->
  accepted Blue millis g = true ->
  state (press Blue millis g) = ALARM_SET
  /\ changed_state (press Blue millis g) = true
  /\ seconds_passed (press Blue millis g) = seconds_passed g
  /\ seconds_for_alarm_start (press Blue millis g)
     = uint (seconds_passed g + uint (60 * number_of_minutes_selected g)).
Proof.
  intros Hs Ha. run_code g. repeat split; lia.
Qed.

(** C1 (as amended): in SETTING_ALARM with M minutes selected, a blue press
    taken when [seconds_passed] is E moves to ALARM_SET with
    [seconds_for_alarm_start = E + 60 * M], provided E + 60 * M and E + 2 fit
    16 bits.  From there, with ticks only, each tick adds 2 to
    [seconds_passed] and the state after n ticks is ALARM_RINGING exactly
    when [1 <= n] and [E + 60 * M <= E + 2 * n], that is from the first tick
    whose new counter value reaches the target and on no earlier tick.  A
    tick in a state other than ALARM_SET never changes the state. *)
Theorem confirm_then_ring (g : Globals) (millis : Z) :
  let E := seconds_passed g in
  let M := number_of_minutes_selected g in
  let g1 := press Blue millis g in
  state g = SETTING_ALARM ->
  accepted Blue millis g = true ->
  0 <= E -> 0 <= M ->
  E + 60 * M < 2 ^ 16 -> E + 2 < 2 ^ 16 ->
  state g1 = ALARM_SET
  /\ seconds_for_alarm_start g1 = E + 60 * M
  /\ (forall n : nat,
      seconds_passed (ticks n g1) = (E + 2 * Z.of_nat n) mod 2 ^ 16
      /\ state (ticks n g1)
         = if (1 <=? Z.of_nat n) && (E + 60 * M <=? E + 2 * Z.of_nat n)
           then ALARM_RINGING
           else ALARM_SET)
  /\ (forall h, state h <> ALARM_SET ->
                state (ISR_TIMER1_COMPA_vect h) = state h).
Proof.
  cbv zeta. intros Hs Ha HE HM Hfit Hnext.
  destruct (confirm_fields g millis Hs Ha) as (H1 & _ & H3 & H4).
  assert (Htarget : seconds_for_alarm_start (press Blue millis g)
                    = seconds_passed g + 60 * number_of_minutes_selected g).
  { rewrite H4.
    rewrite (uint_small (60 * _)) by (unfold UINT_MODULUS; lia).
    apply uint_small. unfold UINT_MODULUS. lia. }
  split; [ exact H1 | ].
  split; [ exact Htarget | ].
  split; [ | exact tick_inert ].
  assert (Hsec : forall n : nat,
             seconds_passed (ticks n (press Blue millis g))
             = (seconds_passed g + 2 * Z.of_nat n) mod 2 ^ 16).
  { intros n. rewrite ticks_seconds_passed, H3; [ reflexivity | ].
    rewrite H3. unfold UINT_MODULUS. lia. }
  intros n. split; [ apply Hsec | ].
  induction n as [ | n IH ].
  - cbn [ticks Z.of_nat Z.leb Z.compare andb]. exact H1.
  - rewrite ticks_S_r, tick_state, ticks_seconds_for_alarm_start, Htarget.
    rewrite Hsec, IH. unfold uint, UINT_MODULUS.
    rewrite Zplus_mod_idemp_l.
    set (E := seconds_passed g) in *.
    set (M := number_of_minutes_selected g) in *.
    destruct (Z.leb_spec 1 (Z.of_nat n));
      destruct (Z.leb_spec (E + 60 * M) (E + 2 * Z.of_nat n));
      destruct (Z.leb_spec 1 (Z.of_nat (S n)));
      destruct (Z.leb_spec (E + 60 * M) (E + 2 * Z.of_nat (S n)));
      cbn [andb]; try lia;
      unfold_constants;
      try (rewrite andb_false_r; reflexivity);
      rewrite andb_true_r.
    all: try (rewrite Z.mod_small by lia).
    all: destruct (Z.leb_spec (E + 60 * M) (E + 2 * Z.of_nat n + 2));
      try reflexivity; try lia.
Qed.

Lemma confirm_then_ring_witness :
  state (press Blue 1800 (press Yellow 1000 boot)) = ALARM_SET
  /\ seconds_for_alarm_start (press Blue 1800 (press Yellow 1000 boot)) = 60
  /\ state (ticks 29 (press Blue 1800 (press Yellow 1000 boot))) = ALARM_SET
  /\ state (ticks 30 (press Blue 1800 (press Yellow 1000 boot)))
     = ALARM_RINGING
  /\ seconds_passed (ticks 30 (press Blue 1800 (press Yellow 1000 boot))) = 60.
Proof.
  pose proof (confirm_then_ring (press Yellow 1000 boot) 1800) as H.
  cbv zeta in H.
  destruct H as (H1 & H2 & H3 & _);
    [ vm_compute; reflexivity | vm_compute; reflexivity
    | vm_compute; discriminate | vm_compute; discriminate
    | vm_compute; reflexivity | vm_compute; reflexivity | ].
  split; [ exact H1 | ].
  split; [ rewrite H2; vm_compute; reflexivity | ].
  split; [ rewrite (proj2 (H3 29%nat)); vm_compute; reflexivity | ].
  split; [ rewrite (proj2 (H3 30%nat)); vm_compute; reflexivity | ].
  rewrite (proj1 (H3 30%nat)). vm_compute. reflexivity.
Defined.

(** C1 as stated fails when E + 60 * M leaves the 16-bit range: with
    E = 65500 and M = 1 the target becomes 24 and not 65560, and the first
    tick, whose new value 65502 is still 58 s short of E + 60, already
    rings. *)
Lemma confirm_target_wraps :
  state setting_late = SETTING_ALARM
  /\ seconds_passed setting_late = 65500
  /\ number_of_minutes_selected setting_late = 1
  /\ accepted Blue 65501000 setting_late = true
  /\ seconds_for_alarm_start (press Blue 65501000 setting_late) = 24
  /\ seconds_for_alarm_start (press Blue 65501000 setting_late)
     <> seconds_passed setting_late
        + number_of_minutes_selected setting_late * 60
  /\ seconds_passed (ticks 1 (press Blue 65501000 setting_late)) = 65502
  /\ state (ticks 1 (press Blue 65501000 setting_late)) = ALARM_RINGING.
Proof.
  split; [ vm_compute; reflexivity | ].
  split; [ vm_compute; reflexivity | ].
  split; [ vm_compute; reflexivity | ].
  split; [ vm_compute; reflexivity | ].
  split; [ vm_compute; reflexivity | ].
  split; [ vm_compute; intros H; discriminate H | ].
  split; vm_compute; reflexivity.
Qed.

(** ** Parity of the counters *)

Lemma even_uint (x : Z) : Z.even (uint x) = Z.even x.
Proof.
  unfold uint, UINT_MODULUS.
  rewrite (Z.div_mod x (2 ^ 16)) at 2 by lia.
  rewrite Z.even_add, Z.even_mul.
  change (Z.even (2 ^ 16)) with true. cbn [orb].
  destruct (Z.even (x mod 2 ^ 16)); reflexivity.
Qed.

Lemma even_plus_even (x y : Z) :
  Z.even x = true -> Z.even y = true -> Z.even (uint (x + y)) = true.
Proof.
  intros Hx Hy. rewrite even_uint, Z.even_add, Hx, Hy. reflexivity.
Qed.

Lemma step_counters_even (g : Globals) (e : Event) :
  counters_even g -> counters_even (step g e).
Proof.
  intros [R1 E1 R2 E2].
  assert (Hm : forall m, Z.even (uint (60 * m)) = true).
  { intros m. rewrite even_uint, Z.even_mul. reflexivity. }
  destruct e as [ | [ | | ] t | p t | t1 t2 ];
    run_code g; constructor;
    cbn [seconds_passed seconds_for_alarm_start];
    try assumption; try apply uint_range;
    try (apply even_plus_even; try assumption; try apply Hm; reflexivity).
Qed.

Lemma run_counters_even (es : list Event) (g : Globals) :
  counters_even g -> counters_even (run es g).
Proof.
  revert g. induction es as [ | e es IH ]; intros g H.
  - exact H.
  - apply (IH (step g e)). now apply step_counters_even.
Qed.

Lemma boot_counters_even : counters_even boot.
Proof. constructor; cbn; try reflexivity; unfold UINT_MODULUS; lia. Qed.

(** In ALARM_SET the state stays ALARM_SET as long as every new value of
    the counter, reduced modulo 2^16, is below the target. *)
Lemma ticks_stay_armed (g : Globals) (n : nat) :
  state g = ALARM_SET ->
  0 <= seconds_passed g < UINT_MODULUS ->
  (forall k : nat, (1 <= k <= n)%nat ->
     uint (seconds_passed g + 2 * Z.of_nat k) < seconds_for_alarm_start g) ->
  state (ticks n g) = ALARM_SET.
Proof.
  intros Hs Hr. induction n as [ | n IH ]; intros Hbelow.
  - exact Hs.
  - rewrite ticks_S_r, tick_state, ticks_seconds_for_alarm_start.
    rewrite IH by (intros k Hk; apply Hbelow; lia).
    rewrite ticks_seconds_passed by exact Hr.
    unfold uint at 1. unfold uint at 1. rewrite Zplus_mod_idemp_l.
    replace (seconds_passed g + 2 * Z.of_nat n + 2)
      with (seconds_passed g + 2 * Z.of_nat (S n)) by lia.
    pose proof (Hbelow (S n) (conj (le_n_S _ _ (Nat.le_0_l n)) (le_n _)))
      as Hlast.
    unfold uint in Hlast.
    destruct (Z.leb_spec (seconds_for_alarm_start g)
                ((seconds_passed g + 2 * Z.of_nat (S n)) mod UINT_MODULUS));
      [ lia | reflexivity ].
Qed.

(** C10 (as amended): after any sequence of events from boot,
    [seconds_passed] and [seconds_for_alarm_start] are both even.  In
    ALARM_SET the alarm fires on the first tick whose new counter value,
    reduced modulo 2^16, is at least the target, and on no earlier tick.
    Whenever [seconds_passed] is still below the target, that is the tick on
    which [seconds_passed] equals the target exactly.  When the target is
    not above [seconds_passed] (as after confirming 0 minutes, or with a
    target that wrapped) and [seconds_passed + 2] fits 16 bits, it is the
    very next tick, with [seconds_passed] above the target. *)
Theorem even_counters_fire_exactly (es : list Event) :
  let g := run es boot in
  Z.even (seconds_passed g) = true
  /\ Z.even (seconds_for_alarm_start g) = true
  /\ (state g = ALARM_SET ->
      forall n : nat,
        (forall k : nat, (1 <= k <= n)%nat ->
           (seconds_passed g + 2 * Z.of_nat k) mod 2 ^ 16
           < seconds_for_alarm_start g) ->
        state (ticks n g) = ALARM_SET
        /\ (seconds_for_alarm_start g
            <= (seconds_passed g + 2 * Z.of_nat (S n)) mod 2 ^ 16 ->
            state (ticks (S n) g) = ALARM_RINGING
            /\ seconds_passed (ticks (S n) g)
               = (seconds_passed g + 2 * Z.of_nat (S n)) mod 2 ^ 16))
  /\ (state g = ALARM_SET ->
      seconds_passed g < seconds_for_alarm_start g ->
      exists n : nat,
        (forall k : nat, (k < n)%nat -> state (ticks k g) = ALARM_SET)
        /\ state (ticks n g) = ALARM_RINGING
        /\ seconds_passed (ticks n g) = seconds_for_alarm_start g
        /\ seconds_for_alarm_start (ticks n g) = seconds_for_alarm_start g)
  /\ (state g = ALARM_SET ->
      seconds_for_alarm_start g <= seconds_passed g ->
      seconds_passed g + 2 < 2 ^ 16 ->
      state (ticks 1 g) = ALARM_RINGING
      /\ seconds_passed (ticks 1 g) = seconds_passed g + 2
      /\ seconds_for_alarm_start (ticks 1 g) < seconds_passed (ticks 1 g)).
Proof.
  cbv zeta.
  destruct (run_counters_even es boot boot_counters_even) as [R1 E1 R2 E2].
  set (g := run es boot) in *.
  split; [ exact E1 | ]. split; [ exact E2 | ].
  split; [ | split ].
  - intros Hs n Hbelow.
    assert (Harmed : state (ticks n g) = ALARM_SET)
      by (apply ticks_stay_armed; assumption).
    split; [ exact Harmed | ].
    intros Hreach.
    rewrite ticks_S_r, tick_state, tick_seconds_passed,
      ticks_seconds_for_alarm_start, Harmed.
    rewrite ticks_seconds_passed by exact R1.
    unfold uint, UINT_MODULUS. rewrite Zplus_mod_idemp_l.
    replace (seconds_passed g + 2 * Z.of_nat n + 2)
      with (seconds_passed g + 2 * Z.of_nat (S n)) by lia.
    destruct (Z.leb_spec (seconds_for_alarm_start g)
                ((seconds_passed g + 2 * Z.of_nat (S n)) mod 2 ^ 16));
      [ | lia ].
    rewrite Z.eqb_refl. split; reflexivity.
  - intros Hs Hlt.
    apply Zeven_bool_iff, Zeven_ex_iff in E1. destruct E1 as [a Ha].
    apply Zeven_bool_iff, Zeven_ex_iff in E2. destruct E2 as [b Hb].
    assert (Hab : a < b) by lia.
    exists (S (Z.to_nat (b - a - 1))).
    assert (Hbefore : forall k : nat, (k <= Z.to_nat (b - a - 1))%nat ->
              state (ticks k g) = ALARM_SET
              /\ seconds_passed (ticks k g)
                 = seconds_passed g + 2 * Z.of_nat k).
    { intros k Hk. apply ticks_before_target; try assumption; lia. }
    split; [ intros k Hk; apply Hbefore; lia | ].
    destruct (Hbefore (Z.to_nat (b - a - 1)) (le_n _)) as [Hst Hsp].
    rewrite ticks_S_r, tick_state, tick_seconds_passed,
      ticks_seconds_for_alarm_start, tick_seconds_for_alarm_start,
      ticks_seconds_for_alarm_start, Hst, Hsp.
    rewrite Z2Nat.id by lia.
    replace (seconds_passed g + 2 * (b - a - 1) + 2)
      with (seconds_for_alarm_start g) by lia.
    rewrite uint_small by lia.
    rewrite Z.leb_refl, Z.eqb_refl. cbn [andb].
    repeat split; reflexivity.
  - intros Hs Hle Hfit. cbn [ticks].
    rewrite tick_state, tick_seconds_passed, tick_seconds_for_alarm_start, Hs.
    rewrite uint_small by (unfold UINT_MODULUS; lia).
    destruct (Z.leb_spec (seconds_for_alarm_start g) (seconds_passed g + 2));
      [ | lia ].
    rewrite Z.eqb_refl. repeat split; try reflexivity. lia.
Qed.

Lemma even_counters_fire_exactly_witness :
  state (run [Press Yellow 1000; Press Blue 2000] boot) = ALARM_SET
  /\ seconds_passed (run [Press Yellow 1000; Press Blue 2000] boot)
     < seconds_for_alarm_start (run [Press Yellow 1000; Press Blue 2000] boot)
  /\ state (ticks 29 (run [Press Yellow 1000; Press Blue 2000] boot))
     = ALARM_SET
  /\ state (ticks 30 (run [Press Yellow 1000; Press Blue 2000] boot))
     = ALARM_RINGING
  /\ (exists n : nat,
      state (ticks n (run [Press Yellow 1000; Press Blue 2000] boot))
      = ALARM_RINGING
      /\ seconds_passed (ticks n (run [Press Yellow 1000; Press Blue 2000] boot))
         = seconds_for_alarm_start
             (run [Press Yellow 1000; Press Blue 2000] boot))
  /\ seconds_passed
       (ticks 1 (run [Press Yellow 1000; Press Red 1400; Press Blue 1800] boot))
     = 2.
Proof.
  split; [ vm_compute; reflexivity | ].
  split; [ vm_compute; reflexivity | ].
  pose proof (even_counters_fire_exactly [Press Yellow 1000; Press Blue 2000])
    as H.
  cbv zeta in H.
  destruct H as (_ & _ & Hfirst & Hexact & _).
  destruct (Hfirst eq_refl 29%nat) as [H29 H30].
  { intros k Hk.
    assert (Hk' : Z.of_nat k <= 29) by lia.
    change (seconds_passed (run [Press Yellow 1000; Press Blue 2000] boot))
      with 0.
    change (seconds_for_alarm_start
              (run [Press Yellow 1000; Press Blue 2000] boot)) with 60.
    rewrite Z.mod_small; lia. }
  split; [ exact H29 | ].
  split; [ apply H30; vm_compute; discriminate | ].
  split.
  - destruct Hexact as (n & _ & H1 & H2 & _);
      [ vm_compute; reflexivity | vm_compute; reflexivity | ].
    exists n. split; [ exact H1 | exact H2 ].
  - pose proof (even_counters_fire_exactly
                  [Press Yellow 1000; Press Red 1400; Press Blue 1800]) as H.
    cbv zeta in H.
    destruct H as (_ & _ & _ & _ & Hnext).
    destruct Hnext as (_ & Hsp & _);
      [ vm_compute; reflexivity | vm_compute; discriminate
      | vm_compute; reflexivity | ].
    rewrite Hsp. vm_compute. reflexivity.
Defined.

(** C10 as stated fails in its last part: with the minutes taken down to 0
    before confirming, the target equals [seconds_passed] at the time of the
    confirmation, both are even, and the alarm fires on the next tick with
    [seconds_passed] = 2 above the target 0. *)
Lemma zero_minutes_fires_past_target :
  let es := [Press Yellow 1000; Press Red 1400; Press Blue 1800] in
  state (run es boot) = ALARM_SET
  /\ number_of_minutes_selected (run es boot) = 0
  /\ state (run (es ++ [Tick]) boot) = ALARM_RINGING
  /\ seconds_passed (run (es ++ [Tick]) boot) = 2
  /\ seconds_for_alarm_start (run (es ++ [Tick]) boot) = 0
  /\ seconds_passed (run (es ++ [Tick]) boot)
     <> seconds_for_alarm_start (run (es ++ [Tick]) boot).
Proof.
  cbv zeta.
  split; [ vm_compute; reflexivity | ].
  split; [ vm_compute; reflexivity | ].
  split; [ vm_compute; reflexivity | ].
  split; [ vm_compute; reflexivity | ].
  split; [ vm_compute; reflexivity | ].
  vm_compute. intros H. discriminate H.
Qed.

(** ** The documented scenario *)

(** Boot, three yellow presses, confirmation at [seconds_passed = 100],
    ringing at 280 and not at 278, then the red button. *)
Example documented_scenario :
  let g1 := press Yellow 1000 boot in
  let g3 := press Yellow 3000 (press Yellow 2000 g1) in
  let g4 := press Blue 100500 (ticks 50 g3) in
  let g5 := ticks 90 g4 in
  state g1 = SETTING_ALARM
  /\ number_of_minutes_selected g1 = 1
  /\ number_of_minutes_selected g3 = 3
  /\ seconds_passed (ticks 50 g3) = 100
  /\ state g4 = ALARM_SET
  /\ seconds_for_alarm_start g4 = 280
  /\ state (ticks 89 g4) = ALARM_SET
  /\ seconds_passed (ticks 89 g4) = 278
  /\ state g5 = ALARM_RINGING
  /\ seconds_passed g5 = 280
  /\ state (press Red 281000 g5) = INITIAL_STATE.
Proof. cbv zeta. repeat split; vm_compute; reflexivity. Qed.

(** * Further properties of the handlers and of the loop *)

(** ** The shape of the state machine *)

(** X1: an event either leaves [state] alone or follows one of the five
    arrows 0 -> 1, 1 -> 2, 2 -> 3, 3 -> 0 and 3 -> 2, and each arrow belongs
    to one handler: only the tick goes from ALARM_SET to ALARM_RINGING, only
    the blue button from SETTING_ALARM to ALARM_SET, only the red button
    from ALARM_RINGING to INITIAL_STATE, only the yellow button from
    INITIAL_STATE to SETTING_ALARM and from ALARM_RINGING to ALARM_SET.  A
    pass of the loop never moves the state. *)
Theorem only_five_transitions (g : Globals) (e : Event) :
  state (step g e) <> state g ->
  is_transition (state g) (state (step g e)) = true
  /\ match e with
     | Tick => state g = ALARM_SET /\ state (step g e) = ALARM_RINGING
     | Press Blue _ => state g = SETTING_ALARM /\ state (step g e) = ALARM_SET
     | Press Red _ =>
         state g = ALARM_RINGING /\ state (step g e) = INITIAL_STATE
     | Press Yellow _ | PinChange _ _ =>
         (state g = INITIAL_STATE /\ state (step g e) = SETTING_ALARM)
         \/ (state g = ALARM_RINGING /\ state (step g e) = ALARM_SET)
     | Pass _ _ => False
     end.
Proof.
  intros H.
  destruct e as [ | [ | | ] t | p t | t1 t2 ];
    run_code g; unfold is_transition; unfold_constants;
    try (exfalso; apply H; reflexivity);
    repeat match goal with
    | H : ?x = _ |- context [?x] => is_var x; subst x
    end;
    (split; [ reflexivity | ]); try (split; reflexivity);
    try (left; split; reflexivity); try (right; split; reflexivity).
Qed.

Lemma only_five_transitions_witness :
  is_transition (state first_ring) (state (step first_ring (Press Red 60500)))
  = true
  /\ state (step first_ring (Press Red 60500)) = INITIAL_STATE.
Proof.
  destruct (only_five_transitions first_ring (Press Red 60500)) as [H1 H2].
  - vm_compute. discriminate.
  - split; [ exact H1 | exact (proj2 H2) ].
Defined.

(** ** What the handlers and the loop leave alone *)

Lemma interrupt_flag_facts (g : Globals) (e : Event) :
  is_interrupt e = true ->
  (changed_state g = true -> changed_state (step g e) = true)
  /\ (state (step g e) <> state g -> changed_state (step g e) = true)
  /\ (changed_state (step g e) = true ->
      changed_state g = true \/ state (step g e) <> state g).
Proof.
  intros He.
  destruct e as [ | [ | | ] t | p t | t1 t2 ]; try discriminate He;
    run_code g; repeat (first [ split | intro ]);
    try assumption; try reflexivity; try (exfalso; lia);
    try (left; assumption); right; lia.
Qed.

(** X2: an interrupt raises [changed_state] only when it moves the state,
    and never lowers it: if the flag is set after an interrupt, it was set
    before or the state is a different one. *)
Theorem flag_raised_only_on_change (g : Globals) (e : Event) :
  is_interrupt e = true ->
  (changed_state g = true -> changed_state (step g e) = true)
  /\ (changed_state (step g e) = true ->
      changed_state g = true \/ state (step g e) <> state g).
Proof.
  intros He.
  destruct (interrupt_flag_facts g e He) as (Hkeep & _ & Honly).
  split; assumption.
Qed.

Lemma flag_raised_only_on_change_witness :
  changed_state (step first_ring (Press Red 60500)) = true.
Proof.
  destruct (flag_raised_only_on_change first_ring (Press Red 60500)) as [H _].
  - reflexivity.
  - apply H. vm_compute. reflexivity.
Defined.

(** X3: the interrupt handlers never write [direction] nor
    [current_direction_start]; the tick writes nothing but [seconds_passed],
    [state] and [changed_state]; the button handlers never write
    [seconds_passed]. *)
Theorem interrupt_frame (g : Globals) (e : Event) :
  is_interrupt e = true ->
  direction (step g e) = direction g
  /\ current_direction_start (step g e) = current_direction_start g
  /\ (e = Tick ->
      last_yellow_button_push (step g e) = last_yellow_button_push g
      /\ last_red_button_push (step g e) = last_red_button_push g
      /\ last_blue_button_push (step g e) = last_blue_button_push g
      /\ seconds_for_alarm_start (step g e) = seconds_for_alarm_start g
      /\ number_of_minutes_selected (step g e) = number_of_minutes_selected g
      /\ force_lcd_clear (step g e) = force_lcd_clear g)
  /\ (e <> Tick -> seconds_passed (step g e) = seconds_passed g).
Proof.
  intros He.
  destruct e as [ | [ | | ] t | p t | t1 t2 ]; try discriminate He;
    run_code g; repeat (first [ split | intro ]);
    try reflexivity; congruence.
Qed.

Lemma interrupt_frame_witness :
  direction (step first_ring (Press Red 60500)) = direction first_ring
  /\ seconds_passed (step first_ring (Press Red 60500))
     = seconds_passed first_ring.
Proof.
  destruct (interrupt_frame first_ring (Press Red 60500)) as (H1 & _ & _ & H4).
  - reflexivity.
  - split; [ exact H1 | ]. apply H4. discriminate.
Defined.

(** X4: a pass of the loop never writes [state], the two counters, the
    number of minutes nor the debounce timestamps.  It leaves
    [changed_state] lowered, writes [direction] and
    [current_direction_start] only in ALARM_RINGING, and lowers
    [force_lcd_clear] exactly in SETTING_ALARM.  Outside ALARM_RINGING a
    second pass finds nothing left to do to the globals. *)
Theorem loop_frame (g : Globals) (millis1 millis2 : Z) :
  let g' := fst (loop millis1 millis2 g) in
  state g' = state g
  /\ seconds_passed g' = seconds_passed g
  /\ seconds_for_alarm_start g' = seconds_for_alarm_start g
  /\ number_of_minutes_selected g' = number_of_minutes_selected g
  /\ last_yellow_button_push g' = last_yellow_button_push g
  /\ last_red_button_push g' = last_red_button_push g
  /\ last_blue_button_push g' = last_blue_button_push g
  /\ changed_state g' = false
  /\ force_lcd_clear g'
     = (force_lcd_clear g && negb (state g =? SETTING_ALARM))%bool
  /\ (state g <> ALARM_RINGING ->
      direction g' = direction g
      /\ current_direction_start g' = current_direction_start g
      /\ forall u1 u2, fst (loop u1 u2 g') = g').
Proof.
  cbv zeta.
  run_code g;
    repeat (first [ split | intro ]); try reflexivity; try lia;
    try (destruct (Z.eqb_spec st 1); try lia);
    destruct flc; reflexivity.
Qed.

Lemma loop_frame_witness :
  direction (fst (loop 1010 1010 (press Yellow 1000 boot))) = false
  /\ fst (loop 1020 1020 (fst (loop 1010 1010 (press Yellow 1000 boot))))
     = fst (loop 1010 1010 (press Yellow 1000 boot)).
Proof.
  pose proof (loop_frame (press Yellow 1000 boot) 1010 1010) as H.
  cbv zeta in H.
  destruct H as (_ & _ & _ & _ & _ & _ & _ & _ & _ & H).
  destruct H as (H1 & _ & H3); [ vm_compute; discriminate | ].
  split; [ rewrite H1; reflexivity | apply H3 ].
Defined.

(** ** The accumulator *)

Lemma step_seconds_passed (g : Globals) (e : Event) :
  seconds_passed (step g e)
  = match e with
    | Tick => uint (seconds_passed g + 2)
    | _ => seconds_passed g
    end.
Proof.
  destruct e as [ | [ | | ] t | p t | t1 t2 ]; run_code g; reflexivity.
Qed.

(** X5: whatever button presses and loop passes come in between,
    [seconds_passed] is the number of ticks doubled, modulo 2^16: no other
    code writes the counter and it wraps every 32768 ticks. *)
Theorem seconds_passed_counts_ticks (es : list Event) (g : Globals) :
  0 <= seconds_passed g < 2 ^ 16 ->
  seconds_passed (run es g)
  = (seconds_passed g + 2 * count_ticks es) mod 2 ^ 16.
Proof.
  revert g. induction es as [ | e es IH ]; intros g Hr.
  - cbn [run fold_left count_ticks]. rewrite Z.mul_0_r, Z.add_0_r.
    symmetry. now apply Z.mod_small.
  - change (run (e :: es) g) with (run es (step g e)).
    rewrite IH; rewrite step_seconds_passed.
    + destruct e; cbn [count_ticks]; try reflexivity.
      unfold uint, UINT_MODULUS. rewrite Zplus_mod_idemp_l. f_equal. lia.
    + destruct e; try exact Hr. apply uint_range.
Qed.

Lemma seconds_passed_counts_ticks_witness :
  seconds_passed
    (run [Tick; Press Yellow 2500; Tick; Pass 4100 4100; Tick] boot) = 6.
Proof.
  rewrite seconds_passed_counts_ticks.
  - reflexivity.
  - vm_compute. split; [ discriminate | reflexivity ].
Defined.

(** ** Selecting and confirming the minutes *)

(** With the target [2 * delay] seconds ahead, [delay] positive, the
    state after [n] ticks is ALARM_RINGING exactly from the tick that makes
    up the delay. *)
Lemma armed_countdown (g : Globals) (delay : Z) :
  state g = ALARM_SET ->
  0 <= seconds_passed g ->
  seconds_for_alarm_start g = seconds_passed g + 2 * delay ->
  0 < delay ->
  seconds_for_alarm_start g < UINT_MODULUS ->
  forall n : nat,
    state (ticks n g)
    = if delay <=? Z.of_nat n then ALARM_RINGING else ALARM_SET.
Proof.
  intros Hs H0 Ht Hd Hr n.
  induction n as [ | n IH ].
  - cbn [ticks Z.of_nat]. destruct (Z.leb_spec delay 0); [ lia | exact Hs ].
  - rewrite ticks_S_r, tick_state, ticks_seconds_for_alarm_start, IH.
    rewrite ticks_seconds_passed by (unfold UINT_MODULUS in *; lia).
    unfold uint. rewrite Zplus_mod_idemp_l.
    destruct (Z.leb_spec delay (Z.of_nat n));
      destruct (Z.leb_spec delay (Z.of_nat (S n))); try lia.
    + unfold ALARM_RINGING, ALARM_SET.
      change (3 =? 2) with false. rewrite andb_false_r. reflexivity.
    + rewrite Z.mod_small by lia. rewrite Z.eqb_refl, andb_true_r.
      destruct (Z.leb_spec (seconds_for_alarm_start g)
                  (seconds_passed g + 2 * Z.of_nat n + 2));
        [ reflexivity | lia ].
    + rewrite Z.mod_small by lia. rewrite Z.eqb_refl, andb_true_r.
      destruct (Z.leb_spec (seconds_for_alarm_start g)
                  (seconds_passed g + 2 * Z.of_nat n + 2));
        [ lia | reflexivity ].
Qed.

(** X6: the target stored by a confirmation is [seconds_passed + 60 * M]
    reduced modulo 2^16 once, for every M.  With [delay] the remainder of
    [60 * M] modulo 2^16, when [delay] is positive and
    [seconds_passed + delay] fits 16 bits, the target is
    [seconds_passed + delay] and the alarm rings exactly on the tick that
    completes [delay] seconds: a selection above 1092 minutes arms a shorter
    alarm. *)
Theorem confirm_target_modular (g : Globals) (millis : Z) :
  state g = SETTING_ALARM ->
  accepted Blue millis g = true ->
  let g' := press Blue millis g in
  let delay := (60 * number_of_minutes_selected g) mod 2 ^ 16 in
  seconds_for_alarm_start g'
  = (seconds_passed g + 60 * number_of_minutes_selected g) mod 2 ^ 16
  /\ (0 <= seconds_passed g -> 0 < delay ->
      seconds_passed g + delay < 2 ^ 16 ->
      seconds_for_alarm_start g' = seconds_passed g + delay
      /\ forall n : nat,
          state (ticks n g')
          = if delay <=? 2 * Z.of_nat n then ALARM_RINGING else ALARM_SET).
Proof.
  intros Hs Ha. cbv zeta.
  destruct (confirm_fields g millis Hs Ha) as (H1 & _ & H3 & H4).
  unfold uint, UINT_MODULUS in H4.
  split.
  - rewrite H4. rewrite Zplus_mod_idemp_r. reflexivity.
  - intros H0 Hpos Hfit.
    assert (Ht : seconds_for_alarm_start (press Blue millis g)
                 = seconds_passed g
                   + (60 * number_of_minutes_selected g) mod 2 ^ 16).
    { rewrite H4. apply Z.mod_small.
      pose proof (Z.mod_pos_bound (60 * number_of_minutes_selected g) (2 ^ 16)).
      lia. }
    split; [ exact Ht | ].
    assert (Hhalf : (60 * number_of_minutes_selected g) mod 2 ^ 16
                    = 2 * ((30 * number_of_minutes_selected g) mod 2 ^ 15)).
    { replace (60 * number_of_minutes_selected g)
        with (2 * (30 * number_of_minutes_selected g)) by lia.
      change (2 ^ 16) with (2 * 2 ^ 15).
      apply Z.mul_mod_distr_l; lia. }
    intros n.
    rewrite (armed_countdown (press Blue millis g)
               ((30 * number_of_minutes_selected g) mod 2 ^ 15)).
    + rewrite Hhalf.
      destruct (Z.leb_spec ((30 * number_of_minutes_selected g) mod 2 ^ 15)
                  (Z.of_nat n));
        destruct (Z.leb_spec
                    (2 * ((30 * number_of_minutes_selected g) mod 2 ^ 15))
                    (2 * Z.of_nat n)); try reflexivity; lia.
    + exact H1.
    + rewrite H3. exact H0.
    + rewrite Ht, H3, Hhalf. reflexivity.
    + lia.
    + rewrite Ht. unfold UINT_MODULUS. lia.
Qed.

(** One minute selected after boot; and 1093 minutes selected, for which
    [60 * 1093] wraps to 44. *)
Lemma confirm_target_modular_witness :
  seconds_for_alarm_start (press Blue 1800 (press Yellow 1000 boot)) = 60
  /\ state (ticks 30 (press Blue 1800 (press Yellow 1000 boot)))
     = ALARM_RINGING
  /\ seconds_for_alarm_start
       (press Blue 1800
          (mkGlobals 1000 0 0 0 0 1093 0 false SETTING_ALARM false false))
     = 44
  /\ state
       (ticks 22
          (press Blue 1800
             (mkGlobals 1000 0 0 0 0 1093 0 false SETTING_ALARM false false)))
     = ALARM_RINGING.
Proof.
  pose proof (confirm_target_modular (press Yellow 1000 boot) 1800) as H.
  cbv zeta in H.
  destruct H as [_ H]; [ vm_compute; reflexivity .. | ].
  destruct H as [H1 H2];
    [ vm_compute; discriminate | vm_compute; reflexivity
    | vm_compute; reflexivity | ].
  split; [ rewrite H1; vm_compute; reflexivity | ].
  split; [ rewrite (H2 30%nat); vm_compute; reflexivity | ].
  pose proof (confirm_target_modular
                (mkGlobals 1000 0 0 0 0 1093 0 false SETTING_ALARM false false)
                1800) as H.
  cbv zeta in H.
  destruct H as [_ H]; [ vm_compute; reflexivity .. | ].
  destruct H as [H3 H4];
    [ vm_compute; discriminate | vm_compute; reflexivity
    | vm_compute; reflexivity | ].
  split; [ rewrite H3; vm_compute; reflexivity | ].
  rewrite (H4 22%nat). vm_compute. reflexivity.
Defined.

Lemma yellow_in_setting_alarm (g : Globals) :
  state g = SETTING_ALARM ->
  state (yellow_button_action g) = SETTING_ALARM
  /\ number_of_minutes_selected (yellow_button_action g)
     = uint (number_of_minutes_selected g + 1).
Proof. intros Hs. run_code g. split; [ lia | reflexivity ]. Qed.

Lemma red_in_setting_alarm (g : Globals) :
  state g = SETTING_ALARM ->
  state (red_button_action g) = SETTING_ALARM
  /\ number_of_minutes_selected (red_button_action g)
     = if 0 <? number_of_minutes_selected g
       then uint (number_of_minutes_selected g - 1)
       else number_of_minutes_selected g.
Proof.
  intros Hs. run_code g; (split; [ lia | ]); try reflexivity; lia.
Qed.

(** X7: in SETTING_ALARM an increase followed by a decrease gives the
    number of minutes back, except at 65535 where the increase wraps to 0
    and the decrease then stays at 0; a decrease followed by an increase
    gives it back except at 0, where the decrease does nothing and the
    increase then yields 1. *)
Theorem increase_decrease_round_trip (g : Globals) :
  state g = SETTING_ALARM ->
  0 <= number_of_minutes_selected g < 2 ^ 16 ->
  let m := number_of_minutes_selected g in
  let up_down := red_button_action (yellow_button_action g) in
  let down_up := yellow_button_action (red_button_action g) in
  state up_down = SETTING_ALARM
  /\ state down_up = SETTING_ALARM
  /\ number_of_minutes_selected up_down = (if m =? 65535 then 0 else m)
  /\ number_of_minutes_selected down_up = (if m =? 0 then 1 else m).
Proof.
  intros Hs Hm. cbv zeta.
  destruct (yellow_in_setting_alarm g Hs) as [Hys Hym].
  destruct (red_in_setting_alarm g Hs) as [Hrs Hrm].
  destruct (red_in_setting_alarm _ Hys) as [Hs1 Hm1].
  destruct (yellow_in_setting_alarm _ Hrs) as [Hs2 Hm2].
  split; [ exact Hs1 | ]. split; [ exact Hs2 | ].
  rewrite Hm1, Hm2, Hym, Hrm.
  set (m := number_of_minutes_selected g) in *.
  unfold uint, UINT_MODULUS.
  split.
  - destruct (Z.eqb_spec m 65535) as [E|N].
    + rewrite E. reflexivity.
    + rewrite (Z.mod_small (m + 1)) by lia.
      destruct (Z.ltb_spec 0 (m + 1)); [ | lia ].
      rewrite Z.mod_small by lia. lia.
  - destruct (Z.eqb_spec m 0) as [E|N].
    + rewrite E. reflexivity.
    + destruct (Z.ltb_spec 0 m); [ | lia ].
      rewrite (Z.mod_small (m - 1)) by lia.
      rewrite Z.mod_small by lia. lia.
Qed.

Lemma increase_decrease_round_trip_witness :
  number_of_minutes_selected
    (red_button_action (yellow_button_action three_minutes_selected)) = 3
  /\ number_of_minutes_selected
       (yellow_button_action (red_button_action three_minutes_selected)) = 3.
Proof.
  pose proof (increase_decrease_round_trip three_minutes_selected) as H.
  cbv zeta in H.
  destruct H as (_ & _ & H1 & H2);
    [ vm_compute; reflexivity
    | vm_compute; split; [ discriminate | reflexivity ] | ].
  split; [ rewrite H1 | rewrite H2 ]; vm_compute; reflexivity.
Defined.

Lemma yellow_press_taken (g : Globals) (millis : Z) :
  200 <= ulong (millis - last_yellow_button_push g) ->
  last_yellow_button_push (press Yellow millis g) = millis
  /\ (state g = INITIAL_STATE ->
      state (press Yellow millis g) = SETTING_ALARM
      /\ number_of_minutes_selected (press Yellow millis g) = 1)
  /\ (state g = SETTING_ALARM ->
      state (press Yellow millis g) = SETTING_ALARM
      /\ number_of_minutes_selected (press Yellow millis g)
         = uint (number_of_minutes_selected g + 1)).
Proof.
  intros Ha. run_code g; repeat (first [ split | intro ]);
    try reflexivity; lia.
Qed.

Lemma press_dropped (b : Button) (g : Globals) (millis : Z) :
  ulong (millis - last_push b g) < 200 -> press b millis g = g.
Proof.
  intros H. rewrite press_unfold. unfold accepted.
  unfold MINIMUM_TIME_BETWEEN_BUTTON_PRESSES_MILLIS.
  destruct (Z.leb_spec 200 (ulong (millis - last_push b g)));
    [ lia | reflexivity ].
Qed.

Lemma spaced_presses_in_setting_alarm (times : list Z) :
  forall g : Globals,
    state g = SETTING_ALARM ->
    0 <= last_yellow_button_push g ->
    spaced (last_yellow_button_push g) times ->
    0 <= number_of_minutes_selected g ->
    number_of_minutes_selected g + Z.of_nat (List.length times) < 2 ^ 16 ->
    state (run (map (Press Yellow) times) g) = SETTING_ALARM
    /\ number_of_minutes_selected (run (map (Press Yellow) times) g)
       = number_of_minutes_selected g + Z.of_nat (List.length times).
Proof.
  induction times as [ | t times IH ]; intros g Hs Hl Hsp Hn0 Hn.
  - cbn [map run fold_left List.length Z.of_nat]. split; [ exact Hs | lia ].
  - change (run (map (Press Yellow) (t :: times)) g)
      with (run (map (Press Yellow) times) (press Yellow t g)).
    cbn [spaced] in Hsp. destruct Hsp as (Hgap & Ht & Hrest).
    cbn [List.length] in *.
    destruct (yellow_press_taken g t) as (Hly & _ & Hset).
    { unfold ulong, ULONG_MODULUS. rewrite Z.mod_small; lia. }
    destruct (Hset Hs) as [Hs' Hm'].
    rewrite uint_small in Hm' by (unfold UINT_MODULUS; lia).
    destruct (IH (press Yellow t g)) as [H1 H2];
      try rewrite Hly; try rewrite Hm'; try assumption; lia.
Qed.

Lemma close_presses_dropped (b : Button) (times : list Z) :
  forall g : Globals,
    Forall (fun t => last_push b g <= t < last_push b g + 200) times ->
    run (map (Press b) times) g = g.
Proof.
  induction times as [ | t times IH ]; intros g Hall.
  - reflexivity.
  - change (run (map (Press b) (t :: times)) g)
      with (run (map (Press b) times) (press b t g)).
    inversion Hall as [ | t' times' Ht Hrest ]; subst.
    rewrite press_dropped.
    + now apply IH.
    + unfold ulong, ULONG_MODULUS. rewrite Z.mod_small; lia.
Qed.

(** X8: from boot, yellow presses at clock readings below 2^32, the first
    at least 200 ms after boot and each at least 200 ms after the one
    before, select as many minutes as there are presses, up to 65535 of
    them; when instead every press after the first comes less than 200 ms
    after the first, they are dropped and one minute is selected. *)
Theorem yellow_presses_select_minutes (first : Z) (later : list Z) :
  200 <= first < 2 ^ 32 ->
  1 + Z.of_nat (List.length later) < 2 ^ 16 ->
  let g := run (map (Press Yellow) (first :: later)) boot in
  (spaced first later ->
   state g = SETTING_ALARM
   /\ number_of_minutes_selected g = 1 + Z.of_nat (List.length later))
  /\ (Forall (fun t => first <= t < first + 200) later ->
      state g = SETTING_ALARM /\ number_of_minutes_selected g = 1).
Proof.
  intros Hf Hn. cbv zeta.
  change (run (map (Press Yellow) (first :: later)) boot)
    with (run (map (Press Yellow) later) (press Yellow first boot)).
  destruct (yellow_press_taken boot first) as (Hly & Hidle & _).
  { change (last_yellow_button_push boot) with 0.
    unfold ulong, ULONG_MODULUS. rewrite Z.mod_small; lia. }
  destruct (Hidle eq_refl) as [Hs1 Hm1].
  split.
  - intros Hsp.
    destruct (spaced_presses_in_setting_alarm later
                (press Yellow first boot)) as [H1 H2];
      try rewrite Hly; try rewrite Hm1; try assumption; lia.
  - intros Hclose.
    rewrite (close_presses_dropped Yellow later).
    + split; assumption.
    + cbn [last_push]. rewrite Hly. exact Hclose.
Qed.

Lemma yellow_presses_select_minutes_witness :
  number_of_minutes_selected
    (run (map (Press Yellow) [1000; 1300; 1900]) boot) = 3
  /\ number_of_minutes_selected
       (run (map (Press Yellow) [1000; 1030; 1199]) boot) = 1.
Proof.
  split.
  - pose proof (yellow_presses_select_minutes 1000 [1300; 1900]) as H.
    cbv zeta in H.
    destruct H as [H _];
      [ lia | cbn [List.length]; lia | ].
    destruct H as [_ H]; [ cbn [spaced]; lia | ].
    rewrite H. reflexivity.
  - pose proof (yellow_presses_select_minutes 1000 [1030; 1199]) as H.
    cbv zeta in H.
    destruct H as [_ H];
      [ lia | cbn [List.length]; lia | ].
    destruct H as [_ H]; [ repeat constructor; lia | ].
    exact H.
Defined.

(** ** Clock readings across the wrap of the millisecond counter *)

(** X9: the debounce test measures the time since the last press that was
    taken correctly also when [millis()] has wrapped in between: if [d]
    milliseconds (fewer than 2^32) have really gone by, the press is taken
    exactly when [200 <= d]. *)
Theorem debounce_across_wrap (b : Button) (g : Globals) (d : Z) :
  0 <= last_push b g < 2 ^ 32 ->
  0 <= d < 2 ^ 32 ->
  let millis := (last_push b g + d) mod 2 ^ 32 in
  accepted b millis g = (200 <=? d)
  /\ (d < 200 -> press b millis g = g)
  /\ (200 <= d -> last_push b (press b millis g) = millis).
Proof.
  intros Hl Hd. cbv zeta.
  assert (He : ulong ((last_push b g + d) mod 2 ^ 32 - last_push b g) = d).
  { unfold ulong, ULONG_MODULUS. rewrite Zminus_mod_idemp_l.
    replace (last_push b g + d - last_push b g) with d by lia.
    now apply Z.mod_small. }
  assert (Ha : accepted b ((last_push b g + d) mod 2 ^ 32) g = (200 <=? d)).
  { unfold accepted. rewrite He. reflexivity. }
  split; [ exact Ha | ]. split.
  - intros H. apply press_dropped. rewrite He. exact H.
  - intros H. rewrite press_unfold, Ha.
    destruct (Z.leb_spec 200 d); [ | lia ].
    rewrite button_action_last_push. apply last_push_set_same.
Qed.

(** A red press taken 100 ms before the millisecond counter wraps. *)
Lemma debounce_across_wrap_witness :
  accepted Red 150 (press Red 4294967196 boot) = true
  /\ accepted Red 50 (press Red 4294967196 boot) = false.
Proof.
  split.
  - pose proof (debounce_across_wrap Red (press Red 4294967196 boot) 250) as H.
    cbv zeta in H.
    destruct H as [H _];
      [ vm_compute; split; [ discriminate | reflexivity ]
      | vm_compute; split; [ discriminate | reflexivity ] | ].
    exact H.
  - pose proof (debounce_across_wrap Red (press Red 4294967196 boot) 150) as H.
    cbv zeta in H.
    destruct H as [H _];
      [ vm_compute; split; [ discriminate | reflexivity ]
      | vm_compute; split; [ discriminate | reflexivity ] | ].
    exact H.
Defined.

(** X10: in ALARM_RINGING, on a pass that does not find the flag set, the
    direction flips exactly when 3500 ms or more have really gone by since
    [current_direction_start], also across a wrap of [millis()]. *)
Theorem motion_window_across_wrap (g : Globals) (d millis2 : Z) :
  state g = ALARM_RINGING ->
  changed_state g = false ->
  0 <= current_direction_start g < 2 ^ 32 ->
  0 <= d < 2 ^ 32 ->
  let millis1 := (current_direction_start g + d) mod 2 ^ 32 in
  direction (fst (loop millis1 millis2 g))
  = (if 3500 <=? d then negb (direction g) else direction g)
  /\ current_direction_start (fst (loop millis1 millis2 g))
     = (if 3500 <=? d then millis2 else current_direction_start g).
Proof.
  intros Hs Hc Hl Hd. cbv zeta.
  assert (He : ulong ((current_direction_start g + d) mod 2 ^ 32
                      - current_direction_start g) = d).
  { unfold ulong, ULONG_MODULUS. rewrite Zminus_mod_idemp_l.
    replace (current_direction_start g + d - current_direction_start g)
      with d by lia.
    now apply Z.mod_small. }
  destruct g as [ly lr lb sp sa nm cds dir st chg flc].
  cbn [state changed_state current_direction_start direction] in *.
  subst st chg. expose_code. unfold_constants.
  change (3 =? 3) with true. cbv beta iota. rewrite He.
  destruct (3500 <=? d); [ split; reflexivity | ].
  destruct dir; split; reflexivity.
Qed.

Lemma motion_window_across_wrap_witness :
  direction (fst (loop 63501 63502 first_ring_entered)) = true.
Proof.
  pose proof (motion_window_across_wrap first_ring_entered 3500 63502) as H.
  cbv zeta in H.
  destruct H as [H _];
    [ vm_compute; reflexivity | vm_compute; reflexivity
    | vm_compute; split; [ discriminate | reflexivity ]
    | vm_compute; split; [ discriminate | reflexivity ] | ].
  exact H.
Defined.

(** ** An armed alarm always rings *)

Lemma armed_below_target_fires (g : Globals) :
  state g = ALARM_SET ->
  counters_even g ->
  seconds_passed g < seconds_for_alarm_start g ->
  exists n : nat,
    1 <= Z.of_nat n <= 32767
    /\ state (ticks n g) = ALARM_RINGING
    /\ forall k : nat, (k < n)%nat -> state (ticks k g) = ALARM_SET.
Proof.
  intros Hs [R1 E1 R2 E2] Hlt. unfold UINT_MODULUS in *.
  apply Zeven_bool_iff, Zeven_ex_iff in E1. destruct E1 as [a Ha].
  apply Zeven_bool_iff, Zeven_ex_iff in E2. destruct E2 as [b Hb].
  assert (Hbefore : forall k : nat, (k <= Z.to_nat (b - a - 1))%nat ->
            state (ticks k g) = ALARM_SET
            /\ seconds_passed (ticks k g) = seconds_passed g + 2 * Z.of_nat k).
  { intros k Hk. apply ticks_before_target; try assumption;
      unfold UINT_MODULUS; lia. }
  exists (S (Z.to_nat (b - a - 1))).
  split; [ lia | ].
  split; [ | intros k Hk; apply Hbefore; lia ].
  destruct (Hbefore (Z.to_nat (b - a - 1)) (le_n _)) as [Hst Hsp].
  rewrite ticks_S_r, tick_state, ticks_seconds_for_alarm_start, Hst, Hsp.
  rewrite Z2Nat.id by lia.
  replace (seconds_passed g + 2 * (b - a - 1) + 2)
    with (seconds_for_alarm_start g) by lia.
  rewrite uint_small by (unfold UINT_MODULUS; lia).
  rewrite Z.leb_refl, Z.eqb_refl. reflexivity.
Qed.

(** X11: in every state reached from boot in which the alarm is armed,
    ticks alone make it ring, after at least one and at most 32768 of them
    (one full turn of the 16-bit counter): an armed alarm is never lost,
    whatever the counter and the target are. *)
Theorem armed_alarm_rings (es : list Event) :
  let g := run es boot in
  state g = ALARM_SET ->
  exists n : nat,
    1 <= Z.of_nat n <= 32768
    /\ state (ticks n g) = ALARM_RINGING
    /\ forall k : nat, (k < n)%nat -> state (ticks k g) = ALARM_SET.
Proof.
  cbv zeta. intros Hs.
  pose proof (run_counters_even es boot boot_counters_even) as Hev.
  set (g := run es boot) in *.
  destruct (Z.leb_spec (seconds_for_alarm_start g)
              (uint (seconds_passed g + 2))) as [Hfire|Hwait].
  - exists 1%nat. split; [ lia | ]. split.
    + cbn [ticks]. rewrite tick_state, Hs.
      destruct (Z.leb_spec (seconds_for_alarm_start g)
                  (uint (seconds_passed g + 2))); [ reflexivity | lia ].
    + intros k Hk. assert (k = 0%nat) by lia. subst k. exact Hs.
  - assert (Hs1 : state (ISR_TIMER1_COMPA_vect g) = ALARM_SET).
    { rewrite tick_state, Hs.
      destruct (Z.leb_spec (seconds_for_alarm_start g)
                  (uint (seconds_passed g + 2))); [ lia | reflexivity ]. }
    assert (Hev1 : counters_even (ISR_TIMER1_COMPA_vect g))
      by exact (step_counters_even g Tick Hev).
    destruct (armed_below_target_fires (ISR_TIMER1_COMPA_vect g) Hs1 Hev1)
      as (n & Hn & Hring & Hbefore).
    { rewrite tick_seconds_passed, tick_seconds_for_alarm_start. exact Hwait. }
    exists (S n). split; [ lia | ]. split.
    + exact Hring.
    + intros [ | k ] Hk; [ exact Hs | ].
      cbn [ticks]. apply Hbefore. lia.
Qed.

Lemma armed_alarm_rings_witness :
  exists n : nat,
    1 <= Z.of_nat n <= 32768
    /\ state (ticks n (run [Press Yellow 1000; Press Blue 1800] boot))
       = ALARM_RINGING.
Proof.
  destruct (armed_alarm_rings [Press Yellow 1000; Press Blue 1800])
    as (n & Hn & Hr & _).
  - vm_compute. reflexivity.
  - exists n. split; [ exact Hn | exact Hr ].
Defined.

(** ** What the loop sends to the motor and to the buzzer *)

Lemma interrupt_step_out (g : Globals) (e : Event) :
  is_interrupt e = true -> step_out g e = [].
Proof. destruct e; intros H; try discriminate H; reflexivity. Qed.

(** The motor and buzzer commands of a pass outside ALARM_RINGING. *)
Lemma loop_out_not_ringing (g : Globals) (millis1 millis2 : Z) :
  state g <> ALARM_RINGING ->
  filter is_motor_command (snd (loop millis1 millis2 g))
  = (if changed_state g then stop_car else [])
  /\ filter is_buzzer_command (snd (loop millis1 millis2 g))
     = (if (state g =? INITIAL_STATE) || (state g =? ALARM_SET)
        then [noTone buzzer_pin] else [])
  /\ forallb (fun o => negb (is_activating o)) (snd (loop millis1 millis2 g))
     = true.
Proof.
  intros Hs. run_code g; repeat split; try reflexivity; lia.
Qed.

Lemma car_stopped_app_quiet (out more : list Output) :
  filter is_motor_command more = [] ->
  car_stopped out -> car_stopped (out ++ more).
Proof.
  intros Hq H. unfold car_stopped in *.
  rewrite filter_app, Hq, app_nil_r. exact H.
Qed.

Lemma car_stopped_app_stop (out more : list Output) :
  filter is_motor_command more = stop_car -> car_stopped (out ++ more).
Proof.
  intros Hq. right. exists (filter is_motor_command out).
  rewrite filter_app, Hq. reflexivity.
Qed.

Lemma step_car_stopped (g : Globals) (e : Event) (out : list Output) :
  (state g <> ALARM_RINGING -> changed_state g = false -> car_stopped out) ->
  state (step g e) <> ALARM_RINGING ->
  changed_state (step g e) = false ->
  car_stopped (out ++ step_out g e).
Proof.
  intros Inv Hs Hc.
  destruct (is_interrupt e) eqn:He.
  - rewrite (interrupt_step_out g e He), app_nil_r.
    destruct (interrupt_flag_facts g e He) as (Hkeep & Hraise & _).
    assert (Hc0 : changed_state g = false).
    { destruct (changed_state g); [ | reflexivity ].
      rewrite Hkeep in Hc by reflexivity. discriminate Hc. }
    assert (Hs0 : state (step g e) = state g).
    { destruct (Z.eq_dec (state (step g e)) (state g)) as [E|N];
        [ exact E | ].
      rewrite (Hraise N) in Hc. discriminate Hc. }
    apply Inv; [ rewrite <- Hs0; exact Hs | exact Hc0 ].
  - destruct e as [ | b t | p t | t1 t2 ]; try discriminate He.
    cbn [step step_out] in *.
    rewrite loop_keeps_state in Hs.
    destruct (loop_out_not_ringing g t1 t2 Hs) as (Hm & _ & _).
    destruct (changed_state g) eqn:Hc0.
    + now apply car_stopped_app_stop.
    + apply car_stopped_app_quiet; [ exact Hm | ]. now apply Inv.
Qed.

Lemma run_car_stopped (es : list Event) :
  forall (g : Globals) (out : list Output),
    (state g <> ALARM_RINGING -> changed_state g = false -> car_stopped out) ->
    state (run es g) <> ALARM_RINGING ->
    changed_state (run es g) = false ->
    car_stopped (out ++ run_out es g).
Proof.
  induction es as [ | e es IH ]; intros g out Inv Hs Hc.
  - cbn [run_out]. rewrite app_nil_r. now apply Inv.
  - cbn [run_out]. rewrite app_assoc.
    apply (IH (step g e)); try assumption.
    intros Hs1 Hc1. now apply step_car_stopped.
Qed.

(** X12: along any execution from boot, whenever the state is not
    ALARM_RINGING and the loop has consumed the last change of state
    ([changed_state] is down), the last motor commands sent are the four
    writes of LOW to the pins 5, 6, 7 and 8, unless no motor command was
    sent at all: the car is never left driven outside a ringing alarm. *)
Theorem car_stopped_outside_ringing (es : list Event) :
  state (run es boot) <> ALARM_RINGING ->
  changed_state (run es boot) = false ->
  car_stopped (run_out es boot).
Proof.
  intros Hs Hc.
  change (run_out es boot) with ([] ++ run_out es boot).
  apply run_car_stopped; try assumption.
  intros _ _. left. reflexivity.
Qed.

Lemma car_stopped_outside_ringing_witness :
  state (run alarm_run boot) = ALARM_RINGING
  /\ existsb is_activating (run_out alarm_run boot) = true
  /\ car_stopped
       (run_out (alarm_run ++ [Press Red 64000; Pass 64010 64010]) boot).
Proof.
  split; [ vm_compute; reflexivity | ].
  split; [ vm_compute; reflexivity | ].
  apply car_stopped_outside_ringing.
  - vm_compute. discriminate.
  - vm_compute. reflexivity.
Defined.

Lemma buzzer_silent_app_quiet (out more : list Output) :
  filter is_buzzer_command more = [] ->
  buzzer_silent out -> buzzer_silent (out ++ more).
Proof.
  intros Hq H. unfold buzzer_silent in *.
  rewrite filter_app, Hq, app_nil_r. exact H.
Qed.

Lemma buzzer_silent_app_noTone (out more : list Output) :
  filter is_buzzer_command more = [noTone buzzer_pin] ->
  buzzer_silent (out ++ more).
Proof.
  intros Hq. right. exists (filter is_buzzer_command out).
  rewrite filter_app, Hq. reflexivity.
Qed.

Lemma step_buzzer_silent (g : Globals) (e : Event) (out : list Output) :
  (state g = INITIAL_STATE \/ state g = ALARM_SET ->
   changed_state g = false -> buzzer_silent out) ->
  state (step g e) = INITIAL_STATE \/ state (step g e) = ALARM_SET ->
  changed_state (step g e) = false ->
  buzzer_silent (out ++ step_out g e).
Proof.
  intros Inv Hs Hc.
  destruct (is_interrupt e) eqn:He.
  - rewrite (interrupt_step_out g e He), app_nil_r.
    destruct (interrupt_flag_facts g e He) as (Hkeep & Hraise & _).
    assert (Hc0 : changed_state g = false).
    { destruct (changed_state g); [ | reflexivity ].
      rewrite Hkeep in Hc by reflexivity. discriminate Hc. }
    assert (Hs0 : state (step g e) = state g).
    { destruct (Z.eq_dec (state (step g e)) (state g)) as [E|N];
        [ exact E | ].
      rewrite (Hraise N) in Hc. discriminate Hc. }
    apply Inv; [ rewrite <- Hs0; exact Hs | exact Hc0 ].
  - destruct e as [ | b t | p t | t1 t2 ]; try discriminate He.
    cbn [step step_out] in *.
    rewrite loop_keeps_state in Hs.
    destruct (loop_out_not_ringing g t1 t2) as (_ & Hb & _).
    { unfold INITIAL_STATE, ALARM_SET, ALARM_RINGING in *. lia. }
    apply buzzer_silent_app_noTone. rewrite Hb.
    destruct Hs as [Hs|Hs]; rewrite Hs; reflexivity.
Qed.

Lemma run_buzzer_silent (es : list Event) :
  forall (g : Globals) (out : list Output),
    (state g = INITIAL_STATE \/ state g = ALARM_SET ->
     changed_state g = false -> buzzer_silent out) ->
    state (run es g) = INITIAL_STATE \/ state (run es g) = ALARM_SET ->
    changed_state (run es g) = false ->
    buzzer_silent (out ++ run_out es g).
Proof.
  induction es as [ | e es IH ]; intros g out Inv Hs Hc.
  - cbn [run_out]. rewrite app_nil_r. now apply Inv.
  - cbn [run_out]. rewrite app_assoc.
    apply (IH (step g e)); try assumption.
    intros Hs1 Hc1. now apply step_buzzer_silent.
Qed.

(** X13: along any execution from boot, whenever the state is
    INITIAL_STATE or ALARM_SET and [changed_state] is down, the last buzzer
    command sent is [noTone], unless none was sent at all.  The same does
    not hold in SETTING_ALARM, whose passes send no [noTone]: when the red
    and the yellow button are both pressed between two passes of a ringing
    alarm, the loop is in SETTING_ALARM with the flag consumed and the last
    buzzer command is still the [tone]. *)
Theorem buzzer_silent_when_idle_or_armed :
  (forall es : list Event,
      state (run es boot) = INITIAL_STATE \/ state (run es boot) = ALARM_SET ->
      changed_state (run es boot) = false ->
      buzzer_silent (run_out es boot))
  /\ (let es := alarm_run
                ++ [Press Red 64000; Press Yellow 64005; Pass 64010 64010] in
      state (run es boot) = SETTING_ALARM
      /\ changed_state (run es boot) = false
      /\ exists before,
          filter is_buzzer_command (run_out es boot)
          = before ++ [tone buzzer_pin BUZZER_FREQUENCY_HZ]).
Proof.
  split.
  - intros es Hs Hc.
    change (run_out es boot) with ([] ++ run_out es boot).
    apply run_buzzer_silent; try assumption.
    intros _ _. left. reflexivity.
  - cbv zeta. split; [ vm_compute; reflexivity | ].
    split; [ vm_compute; reflexivity | ].
    exists [noTone buzzer_pin]. vm_compute. reflexivity.
Qed.

Lemma buzzer_silent_when_idle_or_armed_witness :
  buzzer_silent
    (run_out (alarm_run ++ [Press Red 64000; Pass 64010 64010]) boot).
Proof.
  apply (proj1 buzzer_silent_when_idle_or_armed).
  - left. vm_compute. reflexivity.
  - vm_compute. reflexivity.
Defined.

(** X14: when a ringing alarm is stopped with the red button or snoozed with
    the yellow one, the next pass of the loop clears the display, stops the
    car by writing LOW to the pins 5, 6, 7 and 8, silences the buzzer on pin
    9 and shows the date and time again, and sends nothing else. *)
Theorem leaving_ringing_stops_car_and_buzzer
    (g : Globals) (b : Button) (millis millis1 millis2 : Z) :
  state g = ALARM_RINGING ->
  b <> Blue ->
  accepted b millis g = true ->
  snd (loop millis1 millis2 (press b millis g))
  = [ lcd_clear;
      digitalWrite 5 false; digitalWrite 6 false;
      digitalWrite 7 false; digitalWrite 8 false;
      noTone 9; print_date_and_time ]
  /\ changed_state (fst (loop millis1 millis2 (press b millis g))) = false.
Proof.
  intros Hs Hb Ha.
  assert (Hleft : changed_state (press b millis g) = true
                  /\ (state (press b millis g) = INITIAL_STATE
                      \/ state (press b millis g) = ALARM_SET)).
  { destruct b; try (exfalso; apply Hb; reflexivity);
      run_code g; (split; [ reflexivity | ]); [ right | left ]; reflexivity. }
  destruct Hleft as [Hc Hs'].
  generalize dependent (press b millis g). intros h Hc Hs'.
  run_code h; try discriminate; try (exfalso; lia); split; reflexivity.
Qed.

Lemma leaving_ringing_stops_car_and_buzzer_witness :
  snd (loop 64010 64010 (press Red 64000 (run alarm_run boot)))
  = [ lcd_clear;
      digitalWrite 5 false; digitalWrite 6 false;
      digitalWrite 7 false; digitalWrite 8 false;
      noTone 9; print_date_and_time ].
Proof.
  destruct (leaving_ringing_stops_car_and_buzzer
              (run alarm_run boot) Red 64000 64010 64010) as [H _].
  - vm_compute. reflexivity.
  - discriminate.
  - vm_compute. reflexivity.
  - exact H.
Defined.


(** ** From snoozing to ringing again *)

Lemma snooze_fields (g : Globals) (millis : Z) :
  state g = ALARM_RINGING ->
  accepted Yellow millis g = true ->
  state (press Yellow millis g) = ALARM_SET
  /\ seconds_passed (press Yellow millis g) = seconds_passed g
  /\ seconds_for_alarm_start (press Yellow millis g)
     = uint (seconds_passed g + 180).
Proof.
  intros Hs Ha. run_code g. repeat split.
Qed.

(** X16: a ringing alarm snoozed when [seconds_passed] is at most 65355
    stays armed for 89 ticks and rings again on the 90th, three minutes
    later, whatever the number of minutes selected for the alarm was. *)
Theorem snooze_then_ring (g : Globals) (millis : Z) (n : nat) :
  state g = ALARM_RINGING ->
  accepted Yellow millis g = true ->
  0 <= seconds_passed g <= 65355 ->
  state (ticks n (press Yellow millis g))
  = if 90 <=? Z.of_nat n then ALARM_RINGING else ALARM_SET.
Proof.
  intros Hs Ha Hr.
  destruct (snooze_fields g millis Hs Ha) as (H1 & H2 & H3).
  rewrite uint_small in H3 by (unfold UINT_MODULUS; lia).
  apply (armed_countdown (press Yellow millis g) 90).
  - exact H1.
  - rewrite H2. lia.
  - rewrite H3, H2. lia.
  - lia.
  - rewrite H3. unfold UINT_MODULUS. lia.
Qed.

Lemma snooze_then_ring_witness :
  state (ticks 89 (press Yellow 64000 (run alarm_run boot))) = ALARM_SET
  /\ state (ticks 90 (press Yellow 64000 (run alarm_run boot)))
     = ALARM_RINGING.
Proof.
  split.
  - rewrite (snooze_then_ring (run alarm_run boot) 64000 89);
      vm_compute; try reflexivity.
    split; discriminate.
  - rewrite (snooze_then_ring (run alarm_run boot) 64000 90);
      vm_compute; try reflexivity.
    split; discriminate.
Defined.

(** ** The text of [print_current_alarm_info] *)

Lemma forallb_below (P : Z -> bool) (n : nat) :
  forallb P (below n) = true ->
  forall m, 0 <= m < Z.of_nat n -> P m = true.
Proof.
  intros H m Hm. rewrite forallb_forall in H. apply H.
  unfold below. apply in_map_iff. exists (Z.to_nat m).
  split; [ lia | ]. apply in_seq. lia.
Qed.

Lemma length_append (s t : string) :
  String.length (s ++ t) = (String.length s + String.length t)%nat.
Proof.
  induction s as [ | c s IH ]; cbn; [ reflexivity | now rewrite IH ].
Qed.

Lemma decimal_digits_length (fuel : nat) (v : Z) :
  (String.length (decimal_digits fuel v) <= fuel)%nat.
Proof.
  revert v. induction fuel as [ | fuel IH ]; intros v; cbn [decimal_digits].
  - apply le_n.
  - destruct (v <? 10); cbn [String.length]; [ lia | ].
    rewrite length_append. cbn [String.length].
    specialize (IH (v / 10)). lia.
Qed.




Lemma sint_range (x : Z) : - 2 ^ 15 <= sint x < 2 ^ 15.
Proof.
  unfold sint, UINT_MODULUS.
  pose proof (Z.mod_pos_bound (x + 2 ^ 15) (2 ^ 16)). lia.
Qed.

(** X17: whatever the number of minutes, no text printed by
    [print_current_alarm_info] is longer than 14 characters: the one
    written by [sprintf] fits, with its terminating zero, the 40 bytes of
    [buff], and both fit the 16 columns of a display row. *)
Theorem alarm_info_texts_fit (minutes : Z) (text : string) :
  In (print text) (print_current_alarm_info_calls minutes) ->
  (String.length text <= 14)%nat.
Proof.
  unfold print_current_alarm_info_calls. cbn [In].
  intros [H|[H|[H|[H|[]]]]]; try discriminate H;
    injection H as H; subst text.
  - cbn. lia.
  - unfold minutes_text, sprintf_d. cbv zeta.
    rewrite length_append.
    change (String.length " minutes") with 8%nat.
    destruct (sint minutes <? 0); cbn [String.length];
      match goal with
      | |- context [decimal_digits 5 ?v] =>
          pose proof (decimal_digits_length 5 v)
      end; lia.
Qed.

Lemma alarm_info_texts_fit_witness :
  (String.length (minutes_text 65535) <= 14)%nat.
Proof.
  apply (alarm_info_texts_fit 65535). cbn. right. right. right. left.
  reflexivity.
Defined.



Lemma red_in_setting_alarm_flag (g : Globals) :
  state g = SETTING_ALARM ->
  0 < number_of_minutes_selected g < 2 ^ 16 ->
  force_lcd_clear g = false ->
  force_lcd_clear (red_button_action g)
  = ((number_of_minutes_selected g - 1 =? 9)
     || (number_of_minutes_selected g - 1 =? 99))%bool.
Proof.
  intros Hs Hm Hf.
  assert (Hu : uint (number_of_minutes_selected g - 1)
               = number_of_minutes_selected g - 1)
    by (apply uint_small; unfold UINT_MODULUS; lia).
  run_code g; rewrite Hu in *;
    destruct (Z.eqb_spec (nm - 1) 9); destruct (Z.eqb_spec (nm - 1) 99);
    try reflexivity; try assumption;
    repeat match goal with
    | H : _ \/ _ |- _ => destruct H
    | H : _ /\ _ |- _ => destruct H
    end; tests_to_props; lia.
Qed.

(** X19: up to 999 minutes the red-button handler raises [force_lcd_clear]
    exactly when the text for the new number of minutes is shorter than
    the text for the old one, so that no character of the old text is left
    on the row.  At 1000 the text gets shorter as well and the flag is not
    raised. *)
Theorem force_lcd_clear_follows_text (g : Globals) :
  state g = SETTING_ALARM ->
  force_lcd_clear g = false ->
  let m := number_of_minutes_selected g in
  let shorter :=
    (String.length (minutes_text (m - 1)) <? String.length (minutes_text m))%nat
  in
  (0 < m <= 999 -> force_lcd_clear (red_button_action g) = shorter)
  /\ (m = 1000 ->
      force_lcd_clear (red_button_action g) = false /\ shorter = true).
Proof.
  intros Hs Hf. cbv zeta. split.
  - intros Hm. rewrite red_in_setting_alarm_flag; try assumption; try lia.
    set (m := number_of_minutes_selected g) in *.
    pose proof (forallb_below
      (fun m => Bool.eqb ((m - 1 =? 9) || (m - 1 =? 99))
                  (String.length (minutes_text (m - 1))
                   <? String.length (minutes_text m))%nat)
      1000) as H.
    cbv beta in H. apply eqb_prop. apply H; [ vm_compute; reflexivity | lia ].
  - intros Hm. rewrite red_in_setting_alarm_flag; try assumption; try lia.
    rewrite Hm. split; reflexivity.
Qed.

Lemma force_lcd_clear_follows_text_witness :
  force_lcd_clear (red_button_action ten_minutes_selected) = true
  /\ minutes_text 10 = "10 minutes"%string
  /\ minutes_text 9 = "9 minutes"%string.
Proof.
  pose proof (force_lcd_clear_follows_text ten_minutes_selected) as H.
  cbv zeta in H.
  destruct H as [H _]; [ vm_compute; reflexivity .. | ].
  split; [ | split; reflexivity ].
  rewrite H; [ vm_compute; reflexivity | vm_compute ].
  split; [ reflexivity | discriminate ].
Defined.

(** ** What [setup] leaves in the registers *)

Lemma u8_lor_bit (x mask n : Z) :
  0 <= n < 8 ->
  Z.testbit (u8 (Z.lor x mask)) n = (Z.testbit x n || Z.testbit mask n)%bool.
Proof.
  intros H. unfold u8.
  rewrite Z.mod_pow2_bits_low by lia. apply Z.lor_spec.
Qed.

Lemma bit_of_shiftl_1 (k n : Z) :
  0 <= k -> 0 <= n -> Z.testbit (Z.shiftl 1 k) n = (n =? k).
Proof.
  intros Hk Hn. rewrite Z.shiftl_1_l.
  destruct (Z.eqb_spec n k) as [E|N].
  - subst n. now apply Z.pow2_bits_true.
  - apply Z.pow2_bits_false. congruence.
Qed.

(** X20: whatever the registers held before, [setup] leaves timer 1 with
    TCCR1A = 0, the counter at 0, the compare value 31250 and in TCCR1B
    exactly the bits WGM12, CS12 and CS10; it sets OCIE1A in TIMSK1, the
    four ISC bits in EICRA, INT0 and INT1 in EIMSK, PCIE2 in PCICR and
    PCINT20 in PCMSK2 and leaves every other bit of these five registers as
    it was; it returns with interrupts enabled, and running it a second
    time changes no register. *)
Theorem setup_registers (r : Registers) :
  let r' := fst (setup r) in
  TCCR1A r' = 0 /\ TCNT1 r' = 0 /\ OCR1A r' = 31250
  /\ interrupts_enabled r' = true
  /\ (forall n, 0 <= n < 8 ->
      Z.testbit (TCCR1B r') n = ((n =? WGM12) || (n =? CS12) || (n =? CS10))
      /\ Z.testbit (TIMSK1 r') n = ((n =? OCIE1A) || Z.testbit (TIMSK1 r) n)
      /\ Z.testbit (EICRA r') n
         = ((n =? ISC00) || (n =? ISC01) || (n =? ISC10) || (n =? ISC11)
            || Z.testbit (EICRA r) n)
      /\ Z.testbit (EIMSK r') n
         = ((n =? INT0) || (n =? INT1) || Z.testbit (EIMSK r) n)
      /\ Z.testbit (PCICR r') n = ((n =? PCIE2) || Z.testbit (PCICR r) n)
      /\ Z.testbit (PCMSK2 r') n = ((n =? PCINT20) || Z.testbit (PCMSK2 r) n))
  /\ fst (setup r') = r'.
Proof.
  destruct r as [a b c o timsk1 eicra eimsk pcicr pcmsk2 i].
  cbv beta iota zeta delta
    [setup configure_timer1 configure_button_interrupts fst
     TCCR1A TCCR1B TCNT1 OCR1A TIMSK1 EICRA EIMSK PCICR PCMSK2
     interrupts_enabled].
  assert (Hidem : forall x mask,
             u8 (Z.lor (u8 (Z.lor x mask)) mask) = u8 (Z.lor x mask)).
  { intros x mask. unfold u8.
    rewrite <- !Z.land_ones by lia.
    apply Z.bits_inj'. intros n Hn.
    rewrite !Z.land_spec, !Z.lor_spec, !Z.land_spec, !Z.lor_spec.
    destruct (Z.testbit x n), (Z.testbit mask n),
      (Z.testbit (Z.ones 8) n); reflexivity. }
  split; [ reflexivity | ]. split; [ reflexivity | ].
  split; [ reflexivity | ]. split; [ reflexivity | ].
  split.
  - intros n Hn.
    rewrite !u8_lor_bit, !Z.lor_spec by lia.
    rewrite !bit_of_shiftl_1 by (unfold WGM12, CS12, CS10, OCIE1A, ISC00,
      ISC01, ISC10, ISC11, INT0, INT1, PCIE2, PCINT20; lia).
    rewrite Z.bits_0. cbn [orb].
    repeat split;
      repeat match goal with
      | |- context [?a =? ?b] => destruct (a =? b); cbn [orb]
      end;
      rewrite ?orb_true_r; try reflexivity;
      destruct (Z.testbit _ n); reflexivity.
  - rewrite !Hidem. reflexivity.
Qed.

Lemma setup_registers_witness :
  TCCR1B (fst (setup (mkRegisters 255 255 255 255 255 0 0 0 0 true))) = 13
  /\ Z.testbit
       (PCMSK2 (fst (setup (mkRegisters 255 255 255 255 255 0 0 0 0 true))))
       PD4 = true.
Proof.
  split; [ reflexivity | ].
  pose proof (setup_registers (mkRegisters 255 255 255 255 255 0 0 0 0 true))
    as H.
  cbv zeta in H.
  destruct H as (_ & _ & _ & _ & H & _).
  destruct (H PD4) as (_ & _ & _ & _ & _ & H6); [ unfold PD4; lia | ].
  rewrite H6. reflexivity.
Defined.
